(** * Google-Trend-Dash: the input normalizer, the trend data gateway and
    the render callbacks, embedded from [src/app.py], [src/trend_data.py]
    and [src/utils.py]. *)

From Stdlib Require Import ZArith NArith Ascii String.
From stdpp Require Import base list gmap sets sorting.

Open Scope N_scope.
Open Scope nat_scope.

(** ** Python strings

    A Python [str] is a sequence of Unicode code points.  The keyword
    parser strips characters above U+00FF, so a code point is an [N] and
    not a byte. *)
Module PyStr.

Abbreviation pystr := (list N).

(** An ASCII literal of the source, as code points. *)
Definition py (s : string) : pystr :=
  N_of_ascii <$> list_ascii_of_string s.

(** Truth value of a [str]: the empty string is false. *)
Definition truthy (s : pystr) : bool :=
  match s with [] => false | _ :: _ => true end.

(** [str.isspace] on one character; the table is the whole of
    [_PyUnicode_IsWhitespace] together with the ASCII controls. *)
Definition isspace (c : N) : bool :=
  ((9 <=? c) && (c <=? 13) || (28 <=? c) && (c <=? 32) ||
   (c =? 133) || (c =? 160) || (c =? 5760) ||
   (8192 <=? c) && (c <=? 8202) ||
   (c =? 8232) || (c =? 8233) || (c =? 8239) || (c =? 8287) ||
   (c =? 12288))%N.

Fixpoint lstrip_by (drop : N -> bool) (s : pystr) : pystr :=
  match s with
  | [] => []
  | c :: s' => if drop c then lstrip_by drop s' else s
  end.

Definition rstrip_by (drop : N -> bool) (s : pystr) : pystr :=
  reverse (lstrip_by drop (reverse s)).

Definition strip_by (drop : N -> bool) (s : pystr) : pystr :=
  rstrip_by drop (lstrip_by drop s).

(** [s.strip()] *)
Definition strip (s : pystr) : pystr := strip_by isspace s.

(** [s.strip(chars)]: [chars] is read as a set of characters. *)
Definition strip_chars (chars s : pystr) : pystr :=
  strip_by (fun c => bool_decide (c ∈ chars)) s.

(** [s.split(sep)] for a one-character separator. *)
Fixpoint split (sep : N) (s : pystr) : list pystr :=
  match s with
  | [] => [[]]
  | c :: s' =>
      if (c =? sep)%N then [] :: split sep s'
      else match split sep s' with
           | [] => [[c]]
           | t :: ts => (c :: t) :: ts
           end
  end.

End PyStr.
Import PyStr.

(** ** [src/app.py]: the keyword parser *)

Definition comma : N := 44.

(** The argument of the second [strip] on line 38, code point by code
    point as the file has it: the two straight quotes, then U+00E2,
    U+20AC, U+00E2, U+20AC, U+2122. *)
Definition quote_chars : pystr := [34; 39; 226; 8364; 226; 8364; 8482]%N.

Definition clean_part (p : pystr) : pystr := strip_chars quote_chars (strip p).

(** One turn of the [for p in parts] loop over [(seen, cleaned)]. *)
Definition keep_part (st : gset pystr * list pystr) (p : pystr)
  : gset pystr * list pystr :=
  if truthy p && bool_decide (p ∉ st.1)
  then ({[ p ]} ∪ st.1, st.2 ++ [p])
  else st.

(** [cleaned] when the loop is over, before the slice [cleaned[:5]]. *)
Definition cleaned_keywords (raw : pystr) : list pystr :=
  let parts := clean_part <$> split comma raw in
  (foldl keep_part (∅, []) parts).2.

Definition _parse_keywords (raw : pystr) : list pystr :=
  if negb (truthy raw) then [] else take 5 (cleaned_keywords raw).

(** The truncation flag of [run_analysis], lines 247-251.  The text field
    delivers [None] until the user types. *)
Definition user_count (keywords_raw : pystr) : nat :=
  length (filter (fun p => truthy (strip p) = true) (split comma keywords_raw)).

Definition trimmed_flag (keywords_raw : option pystr) : bool :=
  match keywords_raw with
  | None => false
  | Some raw =>
      if truthy raw
      then bool_decide (length (_parse_keywords raw) < user_count raw)
      else false
  end.

(** What the prose says about the parser: keep the first occurrence of
    every entry, in order. *)
Fixpoint first_seen (l : list pystr) : list pystr :=
  match l with
  | [] => []
  | x :: l' => x :: filter (fun y => y ≠ x) (first_seen l')
  end.

Definition nonempty_parts (raw : pystr) : list pystr :=
  filter (fun p => p ≠ []) (clean_part <$> split comma raw).

(** The quote characters the prose names: the two straight quotes and
    the four curly ones, U+201C, U+201D, U+2018, U+2019. *)
Definition straight_and_curly_quotes : pystr := [34; 39; 8220; 8221; 8216; 8217]%N.

(** "Trims surrounding whitespace and straight/curly quote characters". *)
Definition trim_part (p : pystr) : pystr :=
  strip_chars straight_and_curly_quotes (strip p).

(** "Splits on commas, trims each token, drops empty tokens, removes
    duplicates preserving first-seen order, truncates to the first 5". *)
Definition parseKeywords (raw : pystr) : list pystr :=
  take 5 (first_seen (filter (fun p => p ≠ []) (trim_part <$> split comma raw))).

(** The characters on which line 38 and the prose disagree: the curly
    quotes, which the strip set of the file does not hold, and U+00E2,
    U+20AC, U+2122, which it holds. *)
Definition disputed (c : N) : Prop :=
  c ∈ [8220; 8221; 8216; 8217; 226; 8364; 8482]%N.


(** ** Exceptions

    [exn] stands for an instance of [Exception], the class every
    [except Exception] clause of the repository catches; [str(e)] is its
    message. *)
Inductive exn : Type := Exception (message : pystr).

Inductive outcome (A : Type) : Type :=
  | Returned (a : A)
  | Raised (e : exn).
Arguments Returned {A} a.
Arguments Raised {A} e.

Definition str_of_exn (e : exn) : pystr := let 'Exception m := e in m.

(** ** [src/utils.py] *)

(** [str.isalpha] and [str.upper] read the Unicode character database.
    Its rows for U+0000..U+00FF are written out below; the rows above
    are a parameter. *)
Class Unicode := {
  alpha_above : N → bool;
  upper_above : N → pystr;
}.

Definition latin1_isalpha (c : N) : bool :=
  ((65 <=? c) && (c <=? 90) || (97 <=? c) && (c <=? 122) ||
   (c =? 170) || (c =? 181) || (c =? 186) ||
   (192 <=? c) && (c <=? 214) || (216 <=? c) && (c <=? 246) ||
   (248 <=? c) && (c <=? 255))%N.

Definition latin1_upper (c : N) : pystr :=
  (if (97 <=? c) && (c <=? 122) then [c - 32]
   else if c =? 181 then [924]
   else if c =? 223 then [83; 83]
   else if (224 <=? c) && (c <=? 246) || (248 <=? c) && (c <=? 254) then [c - 32]
   else if c =? 255 then [376]
   else [c])%N.

Section Utils.
Context {U : Unicode}.

Definition isalpha_char (c : N) : bool :=
  if (c <? 256)%N then latin1_isalpha c else alpha_above c.

Definition upper_char (c : N) : pystr :=
  if (c <? 256)%N then latin1_upper c else upper_above c.

(** [s.isalpha()]: at least one character, all of them letters. *)
Definition isalpha (s : pystr) : bool := truthy s && forallb isalpha_char s.

(** [s.upper()] *)
Definition upper (s : pystr) : pystr := s ≫= upper_char.

(** A record of the country database; only [alpha_2] is read. *)
Record Country := { alpha_2 : pystr }.

(** [pycountry.countries.lookup], which raises [LookupError] when
    nothing matches. *)
Class Pycountry := lookup : pystr → outcome Country.

Context {P : Pycountry}.

Definition get_country_code (user_input : pystr) : outcome pystr :=
  if negb (truthy user_input) then Returned []
  else
    let s := strip user_input in
    if (length s =? 2) && isalpha s then Returned (upper s)
    else
      match lookup s with
      | Returned country => Returned (alpha_2 country)
      | Raised _ => Returned []
      end.

End Utils.

(** ** Tables

    A [pandas.DataFrame] in the split orientation the cache uses: row
    labels, column labels, and one list of cells for each row. *)
Inductive cell : Type :=
  | CInt (z : Z)
  | CNaN
  | CBool (b : bool)
  | CStr (s : pystr).

Record DataFrame := {
  index : list cell;
  columns : list pystr;
  data : list (list cell);
}.

(** [pd.DataFrame()] *)
Definition empty_frame : DataFrame :=
  {| index := []; columns := []; data := [] |}.

(** [df.empty]: some axis has length zero. *)
Definition df_empty (df : DataFrame) : bool :=
  (length (index df) =? 0) || (length (columns df) =? 0).

(** [df.drop(columns=[name])] *)
Definition drop_column (name : pystr) (df : DataFrame) : DataFrame :=
  {| index := index df;
     columns := filter (λ c, c ≠ name) (columns df);
     data := (λ row, (filter (λ cv, cv.1 ≠ name) (zip (columns df) row)).*2)
             <$> data df |}.

(** What the provider hands back: a table, [None], or any other object. *)
Inductive pyval : Type :=
  | PyFrame (df : DataFrame)
  | PyNone
  | PyOther.

(** [isinstance(v, pd.DataFrame)] *)
Definition is_frame (v : pyval) : bool :=
  match v with PyFrame _ => true | _ => false end.

(** ** [src/trend_data.py]: the gateway *)

(** The [TrendReq] session of pytrends.  Every operation may raise and
    may change the session. *)
Class TrendReq := {
  session : Type;
  build_payload : list pystr → pystr → pystr → session → outcome () * session;
  interest_over_time : session → outcome pyval * session;
  interest_by_region : pystr → session → outcome pyval * session;
  related_queries :
    session → outcome (option (gmap pystr (option (gmap pystr pyval)))) * session;
}.

(** Calls that leave the process, in the order they are made. *)
Inductive call : Type :=
  | BuildPayload (kw_list : list pystr) (timeframe geo : pystr)
  | InterestOverTime
  | InterestByRegion (resolution : pystr)
  | RelatedQueries
  | Sleep (seconds : N).

Section Gateway.
Context {T : TrendReq}.

Record TrendData := {
  pytrends : session;
  keywords : list pystr;
  timeframe : pystr;
  geo : pystr;
}.

(** The state a method runs in: the [TrendData] object and the calls
    made so far. *)
Record world := {
  service : TrendData;
  trace : list call;
}.

Definition M (A : Type) : Type := world → outcome A * world.

Definition ret {A} (a : A) : M A := λ w, (Returned a, w).

Definition bind {A B} (m : M A) (k : A → M B) : M B :=
  λ w, match m w with
       | (Returned a, w') => k a w'
       | (Raised e, w') => (Raised e, w')
       end.

(** [try: m  except Exception: h] *)
Definition try_except {A} (m : M A) (h : exn → M A) : M A :=
  λ w, match m w with
       | (Returned a, w') => (Returned a, w')
       | (Raised e, w') => h e w'
       end.

Definition self : M TrendData := λ w, (Returned (service w), w).

(** The world after a call [c] that left the session as [s]. *)
Definition with_session (s : session) (c : call) (w : world) : world :=
  {| service := {| pytrends := s;
                   keywords := keywords (service w);
                   timeframe := timeframe (service w);
                   geo := geo (service w) |};
     trace := trace w ++ [c] |}.

(** One call on [self.pytrends], logged. *)
Definition on_pytrends {A} (c : call) (op : session → outcome A * session) : M A :=
  λ w, let '(r, s) := op (pytrends (service w)) in (r, with_session s c w).

(** [time.sleep(seconds)] *)
Definition sleep (seconds : N) : M () :=
  λ w, (Returned (), {| service := service w; trace := trace w ++ [Sleep seconds] |}).

End Gateway.

Declare Scope gateway_scope.
Delimit Scope gateway_scope with gw.
Notation "'let*' x := m 'in' k" := (bind m (λ x, k))
  (at level 10, x name, m at level 100, k at level 200) : gateway_scope.
Notation "'run' m 'in' k" := (bind m (λ _, k))
  (at level 10, m at level 100, k at level 200) : gateway_scope.

Definition default_timeframe : pystr := py "today 1-m".
Definition isPartial : pystr := py "isPartial".
Definition COUNTRY : pystr := py "COUNTRY".
Definition top_key : pystr := py "top".
Definition rising_key : pystr := py "rising".

Section TrendDataMethods.
Context {T : TrendReq}.
Open Scope gateway_scope.

(** [set_query]: [x or d] keeps [x] unless it is empty or [None]. *)
Definition set_query (kws : list pystr) (tf : option pystr) (g : pystr) : M () :=
  λ w, (Returned (),
        {| service :=
             {| pytrends := pytrends (service w);
                keywords := filter (λ k, truthy k = true) kws;
                timeframe := match tf with
                             | Some (c :: t) => c :: t
                             | _ => default_timeframe
                             end;
                geo := g |};
           trace := trace w |}).

Definition _build_payload : M () :=
  let* me := self in
  match keywords me with
  | [] => ret ()
  | _ :: _ =>
      on_pytrends (BuildPayload (keywords me) (timeframe me) (geo me))
                  (build_payload (keywords me) (timeframe me) (geo me))
  end.

Definition fetch_interest_over_time : M DataFrame :=
  let* me := self in
  match keywords me with
  | [] => ret empty_frame
  | _ :: _ =>
      run _build_payload in
      let* df := on_pytrends InterestOverTime interest_over_time in
      match df with
      | PyFrame d =>
          if negb (df_empty d) && bool_decide (isPartial ∈ columns d)
          then ret (drop_column isPartial d)
          else ret d
      | _ => ret empty_frame
      end
  end.

Definition get_interest_by_region (resolution : pystr) : M DataFrame :=
  let* me := self in
  match keywords me with
  | [] => ret empty_frame
  | _ :: _ =>
      run _build_payload in
      try_except
        (let* df := on_pytrends (InterestByRegion resolution)
                          (interest_by_region resolution) in
         match df with
         | PyFrame d => ret d
         | _ => ret empty_frame
         end)
        (λ _, ret empty_frame)
  end.

Definition get_related_queries
  : M (option (gmap pystr (option (gmap pystr pyval)))) :=
  let* me := self in
  match keywords me with
  | [] => ret None
  | _ :: _ =>
      run _build_payload in
      run sleep 1 in
      try_except (on_pytrends RelatedQueries related_queries)
                 (λ _, ret None)
  end.

(** The two [if isinstance(x, pd.DataFrame) and x.empty: x = None]. *)
Definition clean_empty (v : pyval) : pyval :=
  match v with
  | PyFrame d => if df_empty d then PyNone else v
  | _ => v
  end.

(** [d.get(key)] on a bucket: [None] when the key is missing. *)
Definition bucket_get (key : pystr) (bucket : gmap pystr pyval) : pyval :=
  default PyNone (bucket !! key).

(** The returned dict [{"top": ..., "rising": ...}]. *)
Record RelatedFrames := { top : pyval; rising : pyval }.

Definition get_related_frames : M RelatedFrames :=
  let* rq := get_related_queries in
  let* me := self in
  match rq, keywords me with
  | Some rq, first :: _ =>
      if bool_decide (size rq = 0) then ret {| top := PyNone; rising := PyNone |}
      else
        let bucket := default ∅ (default (Some ∅) (rq !! first)) in
        ret {| top := clean_empty (bucket_get top_key bucket);
               rising := clean_empty (bucket_get rising_key bucket) |}
  | _, _ => ret {| top := PyNone; rising := PyNone |}
  end.

End TrendDataMethods.

(** ** Vocabulary of the specification *)

(** "Normalizes empty table to absent". *)
Definition absent_if_empty (found : option pyval) : pyval :=
  match found with
  | Some (PyFrame d) => if df_empty d then PyNone else PyFrame d
  | Some v => v
  | None => PyNone
  end.

(** "The bucket for keywords[0]". *)
Definition first_bucket (rq : gmap pystr (option (gmap pystr pyval)))
    (first : pystr) : gmap pystr pyval :=
  match rq !! first with
  | Some (Some bucket) => bucket
  | _ => ∅
  end.

Definition absent_frames : RelatedFrames := {| top := PyNone; rising := PyNone |}.

(** An ISO 3166 alpha-2 code: two capital ASCII letters. *)
Definition iso_code (r : pystr) : Prop :=
  length r = 2 ∧ Forall (λ c, 65 ≤ c ≤ 90)%N r.

Definition ascii_only (s : pystr) : Prop := Forall (λ c, c < 128)%N s.

(** ** [src/trend_charts.py]: the bar chart of the top regions

    A figure is kept as the arguments [px.bar] receives; the layout
    polish (template, title, margins, colours) does not touch the data. *)
Record BarFigure := {
  bar_frame : DataFrame;
  bar_x : pystr;
  bar_y : pystr;
}.

(** [df.rename(columns={old: new})] *)
Definition rename_column (old new : pystr) (df : DataFrame) : DataFrame :=
  {| index := index df;
     columns := (λ c, if bool_decide (c = old) then new else c) <$> columns df;
     data := data df |}.

(** The table [df.reset_index()] builds for a frame whose index has no
    name: the labels become the first column, called ["index"]
    (["level_0"] when that name is taken), and the rows are numbered
    from zero. *)
Definition index_as_column (df : DataFrame) : DataFrame :=
  let label := if bool_decide (py "index" ∈ columns df)
               then py "level_0" else py "index" in
  {| index := (λ i, CInt (Z.of_nat i)) <$> seq 0 (length (index df));
     columns := label :: columns df;
     data := zip_with cons (index df) (data df) |}.

(** [df.reset_index()]: the new column is inserted without duplicates
    allowed, so a frame that has both an ["index"] and a ["level_0"]
    column is refused with a [ValueError]. *)
Definition reset_index (df : DataFrame) : outcome DataFrame :=
  if bool_decide (py "index" ∈ columns df)
     && bool_decide (py "level_0" ∈ columns df)
  then Raised (Exception (py "cannot insert level_0, already exists"))
  else Returned (index_as_column df).

Definition plot_top_regions (df : DataFrame) (keyword_colname : pystr)
  : outcome (option BarFigure) :=
  if df_empty df || negb (bool_decide (keyword_colname ∈ columns df))
  then Returned None
  else
    match reset_index df with
    | Raised e => Raised e
    | Returned indexed =>
        let dfp := rename_column (py "index") (py "Region") indexed in
        Returned (Some {| bar_frame := dfp; bar_x := py "Region";
                          bar_y := keyword_colname |})
    end.

(** ** [src/app.py]: the cache and the callbacks *)

(** The text kept in a [dcc.Store]: what pandas writes for a table in
    the split orientation, and its reader.  Both belong to pandas; the
    callbacks use the text through its truth value and [read_json]
    only. *)
Class Transport := {
  json : Type;
  json_truthy : json → bool;
  to_json : DataFrame → json;
  read_json : json → DataFrame;
}.

(** The promise of section 4.3 of the specification about the transport. *)
Class Lossless (X : Transport) : Prop := {
  to_json_truthy : ∀ df, json_truthy (to_json df) = true;
  read_to_json : ∀ df, read_json (to_json df) = df;
}.

(** [x or d] on a slider value: [None] and [0] give [d]. *)
Definition or_default (x : option Z) (d : Z) : Z :=
  match x with
  | Some v => if (v =? 0)%Z then d else v
  | None => d
  end.

(** [df.head(n)]: the first [n] rows, all but the last [-n] when [n] is
    negative. *)
Definition head_rows {A} (n : Z) (rows : list A) : list A :=
  if (0 <=? n)%Z then take (Z.to_nat n) rows
  else take (length rows - Z.to_nat (- n)) rows.

(** The number in a cell, for a comparison or a sort key. *)
Definition cell_num (c : cell) : option Z :=
  match c with
  | CInt z => Some z
  | CBool b => Some (Z.b2z b)
  | CNaN | CStr _ => None
  end.

(** [c >= m] on one cell of a column; text against a number is a
    [TypeError], a missing value compares false. *)
Definition cell_ge (c : cell) (m : Z) : outcome bool :=
  match c with
  | CInt z => Returned (m <=? z)%Z
  | CBool b => Returned (m <=? Z.b2z b)%Z
  | CNaN => Returned false
  | CStr _ =>
      Raised (Exception
        (py "'>=' not supported between instances of 'str' and 'int'"))
  end.

(** Position of the first column called [name]. *)
Definition position (name : pystr) (cols : list pystr) : option nat :=
  fst <$> list_find (λ c, c = name) cols.

Definition cell_at (j : nat) (row : list cell) : cell := default CNaN (row !! j).

(** The cells of column [j], top to bottom. *)
Definition column_at (j : nat) (df : DataFrame) : list cell :=
  cell_at j <$> data df.

(** A row travels with its label. *)
Definition rows (df : DataFrame) : list (cell * list cell) :=
  zip (index df) (data df).

Definition of_rows (cols : list pystr) (rs : list (cell * list cell)) : DataFrame :=
  {| index := rs.*1; columns := cols; data := rs.*2 |}.

(** [df[df[col] >= m]] *)
Fixpoint filter_ge (j : nat) (m : Z) (rs : list (cell * list cell))
  : outcome (list (cell * list cell)) :=
  match rs with
  | [] => Returned []
  | r :: rs' =>
      match cell_ge (cell_at j r.2) m with
      | Raised e => Raised e
      | Returned keep =>
          match filter_ge j m rs' with
          | Raised e => Raised e
          | Returned kept => Returned (if keep then r :: kept else kept)
          end
      end
  end.

(** Order of two sort keys under [ascending=False]: larger numbers
    first, missing values last. *)
Definition sorts_before (a b : option Z) : bool :=
  match a, b with
  | Some x, Some y => (y <=? x)%Z
  | Some _, None => true
  | None, Some _ => false
  | None, None => true
  end.

Definition sort_key (j : nat) (r : cell * list cell) : option Z :=
  cell_num (cell_at j r.2).

(** The same order on rows, read at column [j]. *)
Definition ranks_before (j : nat) : relation (cell * list cell) :=
  λ r r', sorts_before (sort_key j r) (sort_key j r') = true.

#[global] Instance ranks_before_dec j r r' : Decision (ranks_before j r r') :=
  bool_eq_dec (sorts_before (sort_key j r) (sort_key j r')) true.

(** [df.sort_values(by=col, ascending=False)].  pandas leaves the order
    of equal keys to its sorting routine; the merge sort used here
    keeps them in their order. *)
Definition sort_values_desc (j : nat) (rs : list (cell * list cell))
  : list (cell * list cell) :=
  merge_sort (ranks_before j) rs.

(** A row that passes [>= m] carries a number, at least [m]. *)
Definition passes (j : nat) (m : Z) (r : cell * list cell) : Prop :=
  ∃ z, sort_key j r = Some z ∧ (m ≤ z)%Z.

Definition interest_suffix : pystr := py "_interest".

Section Callbacks.
Context {X : Transport}.

(** [if text:] on the content of a store, which is [None] or a string. *)
Definition store_truthy (text : option json) : bool :=
  match text with
  | Some t => json_truthy t
  | None => false
  end.

Definition update_top_regions (region_json time_json : option json)
    (min_interest top_n : option Z) : outcome (option BarFigure) :=
  match region_json, time_json with
  | Some region_text, Some time_text =>
      if negb (json_truthy region_text) || negb (json_truthy time_text)
      then Returned None
      else
        let region_df := read_json region_text in
        let time_df := read_json time_text in
        match columns time_df with
        | [] => Returned None
        | first_keyword :: _ =>
            match position first_keyword (columns region_df) with
            | None => Returned None
            | Some j =>
                match filter_ge j (or_default min_interest 0) (rows region_df) with
                | Raised e => Raised e
                | Returned kept =>
                    let fr := of_rows (columns region_df)
                                (head_rows (or_default top_n 10)
                                           (sort_values_desc j kept)) in
                    if df_empty fr then Returned None
                    else
                      let colname := first_keyword ++ interest_suffix in
                      let fr := rename_column first_keyword colname fr in
                      plot_top_regions fr colname
                end
            end
        end
  | _, _ => Returned None
  end.

(** The dict [{"top": ..., "rising": ...}] kept in [store-related]. *)
Record RelatedStore := {
  top_json : option json;
  rising_json : option json;
}.

(** One entry of the table's [columns] property. *)
Record ColumnDef := { name : pystr; id : pystr }.

Definition note_top : pystr := py "Showing top related queries.".

(** Line 359, code point by code point. *)
Definition note_rising : pystr :=
  [226; 8364; 732]%N ++ py "Top" ++ [226; 8364; 8482]%N ++
  py " not available for this combo " ++ [226; 8364; 8221]%N ++
  py " showing rising queries instead.".

Definition note_none : pystr :=
  py "No related queries available for this keyword/timeframe/region.".

(** [df.to_dict("records")] *)
Definition to_records (df : DataFrame) : list (list (pystr * cell)) :=
  zip (columns df) <$> data df.

Definition column_defs (df : DataFrame) : list ColumnDef :=
  (λ c, {| name := c; id := c |}) <$> columns df.

Definition update_related_table (related_json : option RelatedStore)
  : list ColumnDef * list (list (pystr * cell)) * pystr :=
  match related_json with
  | None => ([], [], [])
  | Some related =>
      let shown :=
        if store_truthy (top_json related)
        then (read_json <$> top_json related, note_top)
        else if store_truthy (rising_json related)
        then (read_json <$> rising_json related, note_rising)
        else (None, note_none) in
      match shown with
      | (Some df, note) =>
          if df_empty df then ([], [], note_none)
          else (column_defs df, to_records df, note)
      | (None, _) => ([], [], note_none)
      end
  end.

(** The five outputs of [run_analysis]. *)
Record AnalysisOutputs := {
  store_time_df : option json;
  store_region_df : option json;
  store_related : option RelatedStore;
  alert_is_open : bool;
  alert_children : pystr;
}.

Definition alert_only (message : pystr) : AnalysisOutputs :=
  {| store_time_df := None; store_region_df := None; store_related := None;
     alert_is_open := true; alert_children := message |}.

Definition frame_to_json (v : pyval) : option json :=
  match v with
  | PyFrame d => Some (to_json d)
  | _ => None
  end.

Definition msg_no_data : pystr :=
  py "No trend data returned. Try a longer timeframe (e.g., 'today 12-m') or different keywords.".

Definition msg_first_five : pystr :=
  [226; 8222; 185; 239; 184]%N ++ py " Only the first 5 keywords were used.".

Context {U : Unicode} {P : Pycountry} {T : TrendReq}.
Open Scope gateway_scope.

(** An expression that may raise, inside a method. *)
Definition lift {A} (r : outcome A) : M A := λ w, (r, w).

(** The body of the [try] in [run_analysis]. *)
Definition analysis (keywords_raw tf country_raw : option pystr)
  : M AnalysisOutputs :=
  let raw_list := _parse_keywords (default [] keywords_raw) in
  let trimmed := trimmed_flag keywords_raw in
  match raw_list with
  | [] => ret (alert_only (py "Please enter at least one keyword."))
  | _ :: _ =>
      let* g := lift (get_country_code (default [] country_raw)) in
      run set_query raw_list tf g in
      let* time_df := fetch_interest_over_time in
      let* region_df := get_interest_by_region COUNTRY in
      let* frames := get_related_frames in
      let related_json :=
        {| top_json := frame_to_json (top frames);
           rising_json := frame_to_json (rising frames) |} in
      if df_empty time_df
      then
        let msg := msg_no_data ++
                   (if trimmed
                    then py " Note: only the first 5 keywords are used."
                    else []) in
        ret {| store_time_df := None; store_region_df := None;
               store_related := Some related_json;
               alert_is_open := true;
               alert_children := [226; 338; 32]%N ++ msg |}
      else
        let time_json := to_json time_df in
        let region_json :=
          if negb (df_empty region_df) then Some (to_json region_df) else None in
        if trimmed
        then ret {| store_time_df := Some time_json;
                    store_region_df := region_json;
                    store_related := Some related_json;
                    alert_is_open := true;
                    alert_children := msg_first_five |}
        else ret {| store_time_df := Some time_json;
                    store_region_df := region_json;
                    store_related := Some related_json;
                    alert_is_open := false;
                    alert_children := [] |}
  end.

(** [run_analysis]: the [except Exception as e] arm turns every
    exception of the body into an alert. *)
Definition run_analysis (n_clicks : N) (keywords_raw tf country_raw : option pystr)
  : world → AnalysisOutputs * world :=
  λ w, match analysis keywords_raw tf country_raw w with
       | (Returned out, w') => (out, w')
       | (Raised e, w') =>
           (alert_only (py "Something went wrong: " ++ str_of_exn e), w')
       end.

End Callbacks.

(** ** Concrete collaborators, for the examples *)

(** A character database whose letters all lie in U+0000..U+00FF. *)
Definition latin1_only : Unicode :=
  {| alpha_above := λ _, false; upper_above := λ c, [c] |}.

(** A country database with one record. *)
Definition one_country : Pycountry :=
  λ s, if bool_decide (s = py "Nigeria")
       then Returned {| alpha_2 := py "NG" |}
       else Raised (Exception (py "Could not find a record")).

(** The transport of a single process: the table itself is the text. *)
Definition in_memory : Transport :=
  {| json := DataFrame; json_truthy := λ _, true;
     to_json := λ df, df; read_json := λ df, df |}.

Definition query_col : pystr := py "query".
Definition value_col : pystr := py "value".

Definition sample_rising : DataFrame :=
  {| index := [CInt 0; CInt 1; CInt 2];
     columns := [query_col; value_col];
     data := [[CStr (py "python download"); CInt 250];
              [CStr (py "python 3"); CInt 120];
              [CStr (py "python snake"); CInt 90]] |}.

Definition sample_empty_top : DataFrame :=
  {| index := []; columns := [query_col; value_col]; data := [] |}.

Definition sample_time : DataFrame :=
  {| index := [CStr (py "2024-01-01"); CStr (py "2024-01-02")];
     columns := [py "Python"; isPartial];
     data := [[CInt 70; CBool false]; [CInt 100; CBool true]] |}.

Definition sample_region : DataFrame :=
  {| index := [CStr (py "Nigeria"); CStr (py "Kenya"); CStr (py "Ghana");
               CStr (py "Peru"); CStr (py "Chad")];
     columns := [py "Python"];
     data := [[CInt 35]; [CInt 100]; [CInt 20]; [CInt 5]; [CInt 61]] |}.

(** A provider that answers every call, with an empty [top] table and
    three [rising] rows for the keyword. *)
Definition answering : TrendReq :=
  {| session := ();
     build_payload := λ _ _ _ s, (Returned (), s);
     interest_over_time := λ s, (Returned (PyFrame sample_time), s);
     interest_by_region := λ _ s, (Returned (PyFrame sample_region), s);
     related_queries := λ s,
       (Returned (Some {[ py "Python" :=
                            Some ({[ top_key := PyFrame sample_empty_top ]} ∪
                                  {[ rising_key := PyFrame sample_rising ]}) ]}), s) |}.

(** A provider that is rate limited: every call raises. *)
Definition rate_limited : TrendReq :=
  let e := Exception (py "The request failed: Google returned a response with code 429") in
  {| session := ();
     build_payload := λ _ _ _ s, (Raised e, s);
     interest_over_time := λ s, (Raised e, s);
     interest_by_region := λ _ s, (Raised e, s);
     related_queries := λ s, (Raised e, s) |}.

(** A provider that accepts the payload and fails on the region call. *)
Definition no_regions : TrendReq :=
  {| session := ();
     build_payload := λ _ _ _ s, (Returned (), s);
     interest_over_time := λ s, (Returned (PyFrame sample_time), s);
     interest_by_region := λ _ s, (Raised (Exception (py "KeyError: 'geoMapData'")), s);
     related_queries := λ s, (Returned None, s) |}.

(** A gateway holding [kws], before any call. *)
Definition fresh `{T : TrendReq} (s : session) (kws : list pystr) : world :=
  {| service := {| pytrends := s; keywords := kws;
                   timeframe := default_timeframe; geo := [] |};
     trace := [] |}.

(** ** The rest of the gateway, the charts and the callbacks *)

(** A table whose rows all have one cell for each column and one label
    each, as pandas keeps them. *)
Definition well_formed (df : DataFrame) : Prop :=
  length (data df) = length (index df)
  ∧ Forall (λ row, length row = length (columns df)) (data df).

(** [df.head(n)] on a table. *)
Definition head_frame (n : Z) (df : DataFrame) : DataFrame :=
  of_rows (columns df) (head_rows n (rows df)).

(** [bool(df)] on a table: pandas raises this [ValueError]. *)
Definition ambiguous_truth : exn :=
  Exception (py "The truth value of a DataFrame is ambiguous. Use a.empty, a.bool(), a.item(), a.any() or a.all().").

Definition no_empty_attribute : exn :=
  Exception (py "object has no attribute 'empty'").

Section LegacyMethod.
Context {T : TrendReq}.
Open Scope gateway_scope.

(** [get_top_related_for_first_keyword].  In [a or b] the truth value
    of [a] is taken first: a table raises, [None] is false.  An object
    that is neither is taken with the default truth value of an object
    and without an [empty] attribute. *)
Definition get_top_related_for_first_keyword (top_n : Z) : M (option DataFrame) :=
  let* frames := get_related_frames in
  match top frames with
  | PyFrame _ => lift (Raised ambiguous_truth)
  | PyOther => lift (Raised no_empty_attribute)
  | PyNone =>
      match rising frames with
      | PyNone => ret None
      | PyOther => lift (Raised no_empty_attribute)
      | PyFrame df =>
          if negb (df_empty df) then ret (Some (head_frame top_n df))
          else ret None
      end
  end.

End LegacyMethod.

(** The stored query is the same in both worlds. *)
Definition same_query `{TrendReq} (w w' : world) : Prop :=
  keywords (service w') = keywords (service w)
  ∧ timeframe (service w') = timeframe (service w)
  ∧ geo (service w') = geo (service w).

(** The seven calls of one analysis, in their order. *)
Definition analysis_calls (kws : list pystr) (tf g : pystr) : list call :=
  [BuildPayload kws tf g; InterestOverTime;
   BuildPayload kws tf g; InterestByRegion COUNTRY;
   BuildPayload kws tf g; Sleep 1; RelatedQueries].

(** [timeframe or "today 1-m"] *)
Definition timeframe_or_default (tf : option pystr) : pystr :=
  match tf with
  | Some (c :: t) => c :: t
  | _ => default_timeframe
  end.

(** The geo [run_analysis] hands to [set_query]. *)
Definition resolved_geo `{Unicode} `{Pycountry} (country_raw : option pystr) : pystr :=
  match get_country_code (default [] country_raw) with
  | Returned g => g
  | Raised _ => []
  end.

(** What [run_analysis] returns when its body ran to the end with the
    tables [time_df], [region_df] and [frames] (lines 264-283). *)
Definition analysis_outputs {X : Transport} (trimmed : bool)
    (time_df region_df : DataFrame) (frames : RelatedFrames) : AnalysisOutputs :=
  let related_json :=
    {| top_json := frame_to_json (top frames);
       rising_json := frame_to_json (rising frames) |} in
  if df_empty time_df
  then {| store_time_df := None; store_region_df := None;
          store_related := Some related_json;
          alert_is_open := true;
          alert_children :=
            [226; 338; 32]%N ++ msg_no_data ++
            (if trimmed then py " Note: only the first 5 keywords are used."
             else []) |}
  else {| store_time_df := Some (to_json time_df);
          store_region_df :=
            if negb (df_empty region_df) then Some (to_json region_df) else None;
          store_related := Some related_json;
          alert_is_open := trimmed;
          alert_children := if trimmed then msg_first_five else [] |}.

(** *** [src/trend_charts.py]: the line chart and the map *)

(** The arguments of [px.line]: the table, [x=df.index], [y=df.columns]. *)
Record LineFigure := {
  line_frame : DataFrame;
  line_x : list cell;
  line_y : list pystr;
}.

Definition plot_interest_over_time (df : DataFrame) : option LineFigure :=
  if df_empty df then None
  else Some {| line_frame := df; line_x := index df; line_y := columns df |}.

(** [df[labels]]: for every label, all the columns that carry it. *)
Definition select_columns (labels : list pystr) (df : DataFrame) : DataFrame :=
  {| index := index df;
     columns := labels ≫= (λ l, filter (λ c, c = l) (columns df));
     data := (λ row, labels ≫=
                (λ l, (filter (λ cv, cv.1 = l) (zip (columns df) row)).*2))
             <$> data df |}.

(** [df.columns = names]: a [ValueError] unless the lengths agree. *)
Definition set_columns (names : list pystr) (df : DataFrame) : outcome DataFrame :=
  if bool_decide (length names = length (columns df))
  then Returned {| index := index df; columns := names; data := data df |}
  else Raised (Exception (py "Length mismatch")).

(** The arguments of [px.choropleth]. *)
Record MapFigure := {
  map_frame : DataFrame;
  map_locations : pystr;
  map_color : pystr;
}.

Definition plot_interest_map (df_region : DataFrame) : outcome (option MapFigure) :=
  if df_empty df_region then Returned None
  else
    match reset_index df_region with
    | Raised e => Raised e
    | Returned df_plot =>
        match columns df_plot with
        | region_col :: interest_col :: _ =>
            match set_columns [py "Country"; py "Interest"]
                    (select_columns [region_col; interest_col] df_plot) with
            | Raised e => Raised e
            | Returned df_plot =>
                Returned (Some {| map_frame := df_plot;
                                  map_locations := py "Country";
                                  map_color := py "Interest" |})
            end
        | _ => Returned None
        end
    end.

(** [s.replace(old, new)] for a non-empty [old]: the matches are taken
    from the left and do not overlap.  [skip] counts the characters of
    the current match still to pass. *)
Fixpoint replace_from (skip : nat) (old new s : pystr) : pystr :=
  match s with
  | [] => []
  | c :: s' =>
      match skip with
      | S k => replace_from k old new s'
      | 0 =>
          if bool_decide (old `prefix_of` s)
          then new ++ replace_from (length old - 1) old new s'
          else c :: replace_from 0 old new s'
      end
  end.

Definition replace (old new s : pystr) : pystr := replace_from 0 old new s.

(** The title [plot_top_regions] gives its figure. *)
Definition top_regions_title (keyword_colname : pystr) : pystr :=
  py "Top Regions for '" ++ replace interest_suffix [] keyword_colname ++ py "'".

(** *** [src/app.py]: the remaining callbacks *)

(** [DataFrame.to_csv(buf, index=False)], the text pandas writes. *)
Class CsvWriter := to_csv : DataFrame → pystr.

(** The dict handed to [dcc.Download]. *)
Record Download := { content : pystr; filename : pystr }.

Section MoreCallbacks.
Context {X : Transport}.

Definition update_time_series (time_json : option json) : option LineFigure :=
  if negb (store_truthy time_json) then None
  else match time_json with
       | Some text => plot_interest_over_time (read_json text)
       | None => None
       end.

Definition update_region_map (region_json : option json)
  : outcome (option MapFigure) :=
  if negb (store_truthy region_json) then Returned None
  else match region_json with
       | Some text => plot_interest_map (read_json text)
       | None => Returned None
       end.

(** The table [download_time_csv] writes out. *)
Definition csv_frame (df : DataFrame) : outcome DataFrame :=
  match reset_index df with
  | Raised e => Raised e
  | Returned indexed => Returned (rename_column (py "index") (py "Date") indexed)
  end.

Context {W : CsvWriter}.

Definition download_time_csv (n_clicks : N) (time_json : option json)
  : outcome (option Download) :=
  if negb (store_truthy time_json) then Returned None
  else match time_json with
       | Some text =>
           match csv_frame (read_json text) with
           | Raised e => Raised e
           | Returned table =>
               Returned (Some {| content := to_csv table;
                                 filename := py "interest_over_time.csv" |})
           end
       | None => Returned None
       end.

End MoreCallbacks.

(** A provider whose answer has a [top] table with rows. *)
Definition top_available : TrendReq :=
  {| session := ();
     build_payload := λ _ _ _ s, (Returned (), s);
     interest_over_time := λ s, (Returned (PyFrame sample_time), s);
     interest_by_region := λ _ s, (Returned (PyFrame sample_region), s);
     related_queries := λ s,
       (Returned (Some {[ py "Python" :=
                            Some {[ top_key := PyFrame sample_rising ]} ]}), s) |}.

(** * Properties *)

(** ** Stripping *)

Lemma lstrip_by_suffix drop s : ∃ pre, s = pre ++ lstrip_by drop s.
Proof.
  induction s as [|c s [pre IH]]; simpl.
  - by exists [].
  - destruct (drop c); [exists (c :: pre); simpl; congruence | by exists []].
Qed.

Lemma lstrip_by_head drop s c :
  head (lstrip_by drop s) = Some c → drop c = false.
Proof.
  induction s as [|a s IH]; simpl; [done|].
  destruct (drop a) eqn:Ha; [done|]. simpl. congruence.
Qed.

Lemma rstrip_by_prefix drop s : ∃ post, s = rstrip_by drop s ++ post.
Proof.
  unfold rstrip_by.
  destruct (lstrip_by_suffix drop (reverse s)) as [pre E].
  exists (reverse pre).
  rewrite <- reverse_app, <- E. by rewrite reverse_involutive.
Qed.

Lemma rstrip_by_last drop s c :
  last (rstrip_by drop s) = Some c → drop c = false.
Proof.
  unfold rstrip_by. rewrite last_reverse. apply lstrip_by_head.
Qed.

Lemma strip_by_ends drop s c :
  head (strip_by drop s) = Some c ∨ last (strip_by drop s) = Some c →
  drop c = false.
Proof.
  unfold strip_by. intros [H|H]; [|by eapply rstrip_by_last].
  destruct (rstrip_by_prefix drop (lstrip_by drop s)) as [post E].
  apply (lstrip_by_head drop s). rewrite E.
  destruct (rstrip_by drop (lstrip_by drop s)); [done|]. exact H.
Qed.

Lemma strip_by_nil drop : strip_by drop [] = [].
Proof. reflexivity. Qed.

(** ** The de-duplication loop *)

Lemma first_seen_elem_of l x : x ∈ first_seen l ↔ x ∈ l.
Proof.
  induction l as [|a l IH]; simpl; [done|].
  rewrite !elem_of_cons, list_elem_of_filter, IH.
  destruct (decide (x = a)); naive_solver.
Qed.

Lemma first_seen_NoDup l : NoDup (first_seen l).
Proof.
  induction l as [|a l IH]; simpl; [constructor|].
  apply NoDup_cons. split.
  - rewrite list_elem_of_filter. naive_solver.
  - by apply NoDup_filter.
Qed.

Lemma first_seen_length l : length (first_seen l) ≤ length l.
Proof.
  induction l as [|a l IH]; simpl; [done|].
  pose proof (length_filter (λ y, y ≠ a) (first_seen l)). lia.
Qed.

Lemma keep_part_loop parts : ∀ (seen : gset pystr) (cleaned : list pystr),
  (∀ x, x ∈ seen ↔ x ∈ cleaned) →
  (foldl keep_part (seen, cleaned) parts).2
  = cleaned ++ filter (λ y, y ∉ cleaned)
                      (first_seen (filter (λ p, p ≠ []) parts)).
Proof.
  induction parts as [|p parts IH]; intros seen cleaned Hseen.
  - simpl. by rewrite app_nil_r.
  - cbn [foldl]. unfold keep_part at 2. cbn [fst snd].
    destruct p as [|c p]; cbn [truthy andb].
    + rewrite (filter_cons_False (λ p, p ≠ [])) by naive_solver. exact (IH _ _ Hseen).
    + rewrite (filter_cons_True (λ p, p ≠ [])) by (simpl; congruence). cbn [first_seen].
      case_bool_decide as Hin.
      * rewrite IH.
        2:{ intros x. rewrite elem_of_union, elem_of_singleton, elem_of_app,
              list_elem_of_singleton, Hseen. tauto. }
        rewrite filter_cons_True by (by rewrite <- Hseen).
        rewrite <- app_assoc. simpl. do 2 f_equal.
        rewrite list_filter_filter. apply list_filter_iff.
        intros x. rewrite elem_of_app, list_elem_of_singleton. tauto.
      * rewrite (IH _ _ Hseen).
        assert (c :: p ∈ cleaned) as Hc by (by apply Hseen).
        rewrite filter_cons_False by naive_solver.
        f_equal. rewrite list_filter_filter. apply list_filter_iff.
        intros x. split; [|tauto]. intros Hx. split; [done|]. congruence.
Qed.

(** The loop computes what the prose describes. *)
Lemma cleaned_keywords_first_seen raw :
  cleaned_keywords raw = first_seen (nonempty_parts raw).
Proof.
  unfold cleaned_keywords, nonempty_parts.
  rewrite keep_part_loop by set_solver. cbn [app].
  induction (first_seen _) as [|a l IH]; [done|].
  rewrite filter_cons_True by set_solver. congruence.
Qed.

Example parse_demo :
  _parse_keywords (py "Python, Data Science, Python")
  = [py "Python"; py "Data Science"].
Proof. vm_compute. reflexivity. Qed.

Example parse_seven :
  _parse_keywords (py "a,b,c,d,e,f,g") = [py "a"; py "b"; py "c"; py "d"; py "e"]
  /\ trimmed_flag (Some (py "a,b,c,d,e,f,g")) = true.
Proof. vm_compute. split; reflexivity. Qed.

Lemma clean_part_ends p c :
  head (clean_part p) = Some c ∨ last (clean_part p) = Some c →
  c ∉ quote_chars.
Proof.
  intros H. apply strip_by_ends in H. by apply bool_decide_eq_false in H.
Qed.

Lemma clean_part_nonempty p : clean_part p ≠ [] → truthy (strip p) = true.
Proof.
  unfold clean_part. destruct (strip p); [|done].
  intros H. by destruct H.
Qed.

Lemma nonempty_parts_count raw : length (nonempty_parts raw) ≤ user_count raw.
Proof.
  unfold nonempty_parts, user_count.
  induction (split comma raw) as [|p parts IH]; [done|].
  rewrite fmap_cons.
  destruct (decide (clean_part p ≠ [])) as [Hp|Hp].
  - rewrite (filter_cons_True (λ p, p ≠ [])) by done.
    rewrite filter_cons_True by (by apply clean_part_nonempty).
    simpl. lia.
  - rewrite (filter_cons_False (λ p, p ≠ [])) by done.
    etrans; [exact IH|]. rewrite filter_cons. case_decide; simpl; lia.
Qed.

(** When the slice really cuts entries off, the flag is raised. *)
Lemma truncation_sets_flag raw :
  5 < length (cleaned_keywords raw) → trimmed_flag (Some raw) = true.
Proof.
  intros Hlen. unfold trimmed_flag, _parse_keywords.
  destruct raw as [|c raw]; [vm_compute in Hlen; lia|]. simpl truthy. cbn [negb].
  apply bool_decide_eq_true. rewrite length_take.
  pose proof (nonempty_parts_count (c :: raw)) as Hn.
  pose proof (first_seen_length (nonempty_parts (c :: raw))) as Hf.
  rewrite <- cleaned_keywords_first_seen in Hf. lia.
Qed.

Lemma lstrip_by_ext d1 d2 s :
  (∀ c, c ∈ s → d1 c = d2 c) → lstrip_by d1 s = lstrip_by d2 s.
Proof.
  induction s as [|a s IH]; [done|]. intros Hd. simpl.
  rewrite <- (Hd a) by set_solver. destruct (d1 a); [|done].
  apply IH. intros c Hc. apply Hd. set_solver.
Qed.

Lemma lstrip_by_subset d s c : c ∈ lstrip_by d s → c ∈ s.
Proof.
  destruct (lstrip_by_suffix d s) as [pre E]. rewrite E at 2. set_solver.
Qed.

Lemma strip_by_ext d1 d2 s :
  (∀ c, c ∈ s → d1 c = d2 c) → strip_by d1 s = strip_by d2 s.
Proof.
  intros Hd. unfold strip_by, rstrip_by.
  rewrite <- (lstrip_by_ext d1 d2 s) by done. f_equal.
  apply lstrip_by_ext. intros c Hc. apply Hd.
  rewrite elem_of_reverse in Hc. by eapply lstrip_by_subset.
Qed.

(** Stripping removes characters at the two ends and nothing else. *)
Lemma strip_by_infix d s : ∃ before after, s = before ++ strip_by d s ++ after.
Proof.
  unfold strip_by.
  destruct (lstrip_by_suffix d s) as [before E].
  destruct (rstrip_by_prefix d (lstrip_by d s)) as [after E'].
  exists before, after. by rewrite <- E', <- E.
Qed.

Lemma strip_by_subset d s c : c ∈ strip_by d s → c ∈ s.
Proof.
  destruct (strip_by_infix d s) as (before & after & E). rewrite E at 2.
  set_solver.
Qed.

Lemma split_characters sep s t c : t ∈ split sep s → c ∈ t → c ∈ s.
Proof.
  revert t. induction s as [|a s IH]; intros t; simpl.
  - intros ->%list_elem_of_singleton. set_solver.
  - destruct (a =? sep)%N.
    + intros [->|Ht]%elem_of_cons Hc; [set_solver|].
      apply elem_of_cons. right. by eapply IH.
    + destruct (split sep s) as [|t0 ts] eqn:E.
      * intros ->%list_elem_of_singleton. set_solver.
      * intros [->|Ht]%elem_of_cons Hc.
        -- apply elem_of_cons in Hc as [->|Hc]; [set_solver|].
           apply elem_of_cons. right. eapply IH; [|done]. set_solver.
        -- apply elem_of_cons. right. eapply IH; [|done]. set_solver.
Qed.

Lemma clean_part_infix p : ∃ before after, p = before ++ clean_part p ++ after.
Proof.
  unfold clean_part, strip_chars, strip.
  destruct (strip_by_infix isspace p) as (b1 & a1 & E1).
  destruct (strip_by_infix (λ c, bool_decide (c ∈ quote_chars))
              (strip_by isspace p)) as (b2 & a2 & E2).
  exists (b1 ++ b2), (a2 ++ a1). rewrite E1 at 1. rewrite E2 at 1.
  by rewrite <- !app_assoc.
Qed.

(** Away from the disputed characters, line 38 trims what the prose
    says. *)
Lemma clean_part_trim_part p :
  Forall (λ c, ¬ disputed c) p → clean_part p = trim_part p.
Proof.
  intros Hp. unfold clean_part, trim_part, strip_chars.
  apply strip_by_ext. intros c Hc%strip_by_subset.
  rewrite Forall_forall in Hp. specialize (Hp c Hc).
  apply bool_decide_ext. unfold disputed, quote_chars, straight_and_curly_quotes in *.
  rewrite !elem_of_cons, !elem_of_nil in *. naive_solver.
Qed.

(** C3 (as amended): at most five entries, no duplicates, no empty
    entry; every entry is a comma-separated token with characters taken
    off at its two ends, and neither begins nor ends with a straight
    quote; the entries are in first-seen order; on a raw string without
    curly quotes and without U+00E2, U+20AC, U+2122 the result is what
    the prose describes (trim white space, then straight and curly
    quotes, drop empty tokens, keep first occurrences, cut to five);
    and the example of the specification. *)
Theorem parse_keywords_first_seen (raw : pystr) :
  let r := _parse_keywords raw in
  length r ≤ 5 ∧ NoDup r ∧ (@nil N ∉ r)
  ∧ r = take 5 (first_seen (nonempty_parts raw))
  ∧ (∀ k c, k ∈ r → head k = Some c ∨ last k = Some c →
            c ≠ 34%N ∧ c ≠ 39%N)
  ∧ (∀ k, k ∈ r →
       ∃ t before after, t ∈ split comma raw ∧ t = before ++ k ++ after)
  ∧ (Forall (λ c, ¬ disputed c) raw → r = parseKeywords raw)
  ∧ _parse_keywords (py "Python, Data Science, Python")
    = [py "Python"; py "Data Science"].
Proof.
  assert (_parse_keywords raw = take 5 (first_seen (nonempty_parts raw))) as E.
  { unfold _parse_keywords. destruct raw; [reflexivity|].
    cbn [truthy negb]. by rewrite cleaned_keywords_first_seen. }
  assert (∀ k, k ∈ _parse_keywords raw → k ∈ nonempty_parts raw) as Hsub.
  { intros k. rewrite E. intros Hk.
    apply first_seen_elem_of.
    eapply elem_of_sublist; [exact Hk|apply sublist_take]. }
  cbv zeta. split_and!.
  - rewrite E, length_take. lia.
  - rewrite E. eapply sublist_NoDup; [apply first_seen_NoDup|apply sublist_take].
  - intros Hin. apply Hsub in Hin. unfold nonempty_parts in Hin.
    apply list_elem_of_filter in Hin. naive_solver.
  - exact E.
  - intros k c Hk Hends. apply Hsub in Hk. unfold nonempty_parts in Hk.
    apply list_elem_of_filter in Hk as [_ Hk].
    apply list_elem_of_fmap in Hk as (t & -> & _).
    apply clean_part_ends in Hends. set_solver.
  - intros k Hk. apply Hsub in Hk. unfold nonempty_parts in Hk.
    apply list_elem_of_filter in Hk as [_ Hk].
    apply list_elem_of_fmap in Hk as (t & -> & Ht).
    destruct (clean_part_infix t) as (before & after & Et). eauto.
  - intros Hraw. rewrite E. unfold parseKeywords, nonempty_parts.
    do 3 f_equal. apply Forall_fmap_ext_1, Forall_forall. intros t Ht.
    apply clean_part_trim_part, Forall_forall. intros c Hc.
    rewrite Forall_forall in Hraw. apply Hraw. by eapply split_characters.
  - vm_compute. reflexivity.
Qed.

(** C3, the claim as written fails twice: quoted white space is kept as
    an entry, because the quotes are removed after the white space; and
    a keyword in curly quotes keeps them, because the strip set of the
    file holds no curly quote. *)
Lemma parse_keywords_whitespace_entry :
  (_parse_keywords (py "' '") = [py " "]
   ∧ forallb isspace (py " ") = true)
  ∧ _parse_keywords ([8220] ++ py "Py" ++ [8221])%N
    = [[8220] ++ py "Py" ++ [8221]]%N.
Proof. vm_compute. split_and!; reflexivity. Qed.

Lemma parse_keywords_first_seen_witness :
  _parse_keywords (py "'Python', Data Science, Python")
  = parseKeywords (py "'Python', Data Science, Python")
  ∧ (80 ≠ 34 ∧ 80 ≠ 39)%N.
Proof.
  destruct (parse_keywords_first_seen (py "'Python', Data Science, Python"))
    as (_ & _ & _ & _ & Hends & _ & Hprose & _).
  split.
  - apply Hprose. unfold disputed.
    apply (bool_decide_unpack (Forall _ _)). vm_compute. exact I.
  - apply (Hends (py "Python") 80%N); [|by left].
    vm_compute. apply list_elem_of_here.
Defined.

(** Line 38 against the prose at the disputed characters: the prose
    takes curly quotes off, and the strip set of the file, which holds
    U+20AC, takes a leading euro sign off. *)
Example parse_keywords_curly_quotes_stay :
  _parse_keywords ([8220] ++ py "Py" ++ [8221])%N = [[8220] ++ py "Py" ++ [8221]]%N
  ∧ parseKeywords ([8220] ++ py "Py" ++ [8221])%N = [py "Py"].
Proof. vm_compute. split; reflexivity. Qed.

Example parse_keywords_euro_sign_goes :
  _parse_keywords (8364%N :: py "uro") = [py "uro"]
  ∧ parseKeywords (8364%N :: py "uro") = [8364%N :: py "uro"].
Proof. vm_compute. split; reflexivity. Qed.

(** ** The country resolver *)

Ltac split_comparisons :=
  repeat match goal with
         | H : context [(?a <=? ?b)%N] |- _ => destruct (N.leb_spec a b); try lia
         | H : context [(?a =? ?b)%N] |- _ => destruct (N.eqb_spec a b); try lia
         | |- context [(?a <=? ?b)%N] => destruct (N.leb_spec a b); try lia
         | |- context [(?a =? ?b)%N] => destruct (N.eqb_spec a b); try lia
         end.

Lemma upper_char_ascii_letter `{Unicode} c :
  (c < 128)%N → isalpha_char c = true →
  ∃ c', upper_char c = [c'] ∧ (65 ≤ c' ≤ 90)%N.
Proof.
  intros Hc Ha. unfold isalpha_char, upper_char in *.
  destruct (N.ltb_spec c 256); [|lia].
  unfold latin1_isalpha, latin1_upper in *.
  split_comparisons; simpl in *; try discriminate;
    (eexists; split; [reflexivity|lia]).
Qed.

Lemma upper_ascii_pair `{Unicode} s :
  length s = 2 → isalpha s = true → ascii_only s → iso_code (upper s).
Proof.
  intros Hlen Ha Hascii.
  destruct s as [|a [|b [|? ?]]]; try done.
  unfold isalpha in Ha. simpl in Ha.
  apply andb_true_iff in Ha as [Ha Hb].
  apply andb_true_iff in Hb as [Hb _].
  inversion Hascii as [|? ? Ha' Hrest]; subst.
  inversion Hrest as [|? ? Hb' _]; subst.
  destruct (upper_char_ascii_letter a Ha' Ha) as (a' & Ea & ?).
  destruct (upper_char_ascii_letter b Hb' Hb) as (b' & Eb & ?).
  unfold upper. simpl. rewrite Ea, Eb. simpl.
  split; [done|]. repeat constructor; lia.
Qed.

Lemma get_country_code_returns `{Unicode} `{Pycountry} s :
  ∃ r, get_country_code s = Returned r.
Proof.
  unfold get_country_code.
  destruct (negb (truthy s)); [by eexists|].
  destruct (_ && _); [by eexists|].
  destruct (lookup (strip s)); by eexists.
Qed.



(** C10 (as amended): [get_country_code] always returns; the result is
    empty, or two capital ASCII letters when the database holds such
    codes only, or the upper-cased two-letter input when one of its
    letters is not ASCII. *)
Theorem get_country_code_shape `{Unicode} `{Pycountry} (user_input : pystr) :
  (∀ q country, lookup q = Returned country → iso_code (alpha_2 country)) →
  ∃ r, get_country_code user_input = Returned r
       ∧ (r = [] ∨ iso_code r
          ∨ (r = upper (strip user_input)
             ∧ length (strip user_input) = 2
             ∧ isalpha (strip user_input) = true
             ∧ ¬ ascii_only (strip user_input))).
Proof.
  intros Hdb. unfold get_country_code.
  destruct (negb (truthy user_input)); [eauto|].
  destruct (_ && _) eqn:Htwo.
  - apply andb_true_iff in Htwo as [Hlen%Nat.eqb_eq Ha].
    eexists; split; [reflexivity|].
    destruct (decide (ascii_only (strip user_input))) as [Hascii|Hn].
    + right; left. by apply upper_ascii_pair.
    + right; right. done.
  - destruct (lookup (strip user_input)) as [country|e] eqn:Hl; [|eauto].
    eexists; split; [reflexivity|]. right; left. by eapply Hdb.
Qed.

Lemma get_country_code_shape_witness :
  ∃ r, get_country_code (U := latin1_only) (P := one_country) (py "ng")
       = Returned r
       ∧ (r = [] ∨ iso_code r
          ∨ (r = upper (U := latin1_only) (strip (py "ng"))
             ∧ length (strip (py "ng")) = 2
             ∧ isalpha (U := latin1_only) (strip (py "ng")) = true
             ∧ ¬ ascii_only (strip (py "ng")))).
Proof.
  apply (get_country_code_shape (H := latin1_only) (H0 := one_country)).
  intros q country. unfold lookup, one_country.
  case_bool_decide; [|discriminate].
  intros [= <-]. split; [reflexivity|]. repeat constructor; simpl; lia.
Defined.

(** C10, the claim as written fails: the two letters [U+00DF U+0061]
    come back as the three letters ["SSA"]. *)
Lemma get_country_code_sharp_s :
  get_country_code (U := latin1_only) (P := one_country) [223; 97]%N
  = Returned (py "SSA")
  ∧ py "SSA" ≠ [] ∧ length (py "SSA") ≠ 2.
Proof. vm_compute. split_and!; [reflexivity|discriminate|lia]. Qed.

(** ** The gateway *)

Section GatewayFacts.
Context {T : TrendReq}.

Lemma build_payload_run w kw kws r s1 :
  keywords (service w) = kw :: kws →
  build_payload (kw :: kws) (timeframe (service w)) (geo (service w))
                (pytrends (service w)) = (r, s1) →
  _build_payload w
  = (r, with_session s1
          (BuildPayload (kw :: kws) (timeframe (service w)) (geo (service w))) w).
Proof.
  intros Hk Hb. unfold _build_payload, bind, self, on_pytrends. simpl.
  rewrite Hk, Hb. reflexivity.
Qed.

Lemma get_related_queries_run w kw kws s1 r s2 :
  keywords (service w) = kw :: kws →
  build_payload (kw :: kws) (timeframe (service w)) (geo (service w))
                (pytrends (service w)) = (Returned (), s1) →
  related_queries s1 = (r, s2) →
  ∃ w', get_related_queries w
        = (Returned (match r with Returned found => found | Raised _ => None end), w')
        ∧ keywords (service w') = kw :: kws.
Proof.
  intros Hk Hb Hr. unfold get_related_queries, bind at 1, self. simpl.
  rewrite Hk. unfold bind at 1. rewrite (build_payload_run _ _ _ _ _ Hk Hb).
  unfold bind, sleep, try_except, on_pytrends, ret. simpl. rewrite Hr.
  destruct r; eexists; (split; [reflexivity|done]).
Qed.

Lemma get_related_frames_run w kw kws s1 r s2 :
  keywords (service w) = kw :: kws →
  build_payload (kw :: kws) (timeframe (service w)) (geo (service w))
                (pytrends (service w)) = (Returned (), s1) →
  related_queries s1 = (r, s2) →
  ∃ w', get_related_frames w
        = (Returned
             match r with
             | Returned (Some rq) =>
                 {| top := absent_if_empty (first_bucket rq kw !! top_key);
                    rising := absent_if_empty (first_bucket rq kw !! rising_key) |}
             | _ => absent_frames
             end, w').
Proof.
  intros Hk Hb Hr.
  destruct (get_related_queries_run _ _ _ _ _ _ Hk Hb Hr) as (w' & Hq & Hk').
  exists w'. unfold get_related_frames, bind at 1. rewrite Hq.
  unfold bind, self, ret. simpl. rewrite Hk'.
  destruct r as [[rq|]|e]; try reflexivity.
  case_bool_decide as Hsize.
  - apply map_size_empty_iff in Hsize. subst rq.
    unfold first_bucket. rewrite lookup_empty. reflexivity.
  - do 2 f_equal. unfold first_bucket, bucket_get, clean_empty, absent_if_empty.
    destruct (rq !! kw) as [[bucket|]|]; simpl;
      rewrite ?lookup_empty; simpl; try reflexivity.
    f_equal.
    + by destruct (bucket !! top_key) as [[]|].
    + by destruct (bucket !! rising_key) as [[]|].
Qed.

End GatewayFacts.

(** C7: without keywords the three fetches answer at once and the world
    is unchanged: nothing is sent to the provider and nothing sleeps. *)
Theorem no_keywords_no_call `{TrendReq} (w : world) (resolution : pystr) :
  keywords (service w) = [] →
  fetch_interest_over_time w = (Returned empty_frame, w)
  ∧ get_interest_by_region resolution w = (Returned empty_frame, w)
  ∧ get_related_queries w = (Returned None, w).
Proof.
  intros Hk.
  unfold fetch_interest_over_time, get_interest_by_region, get_related_queries,
    bind, self, ret.
  simpl. rewrite Hk. done.
Qed.

Lemma no_keywords_no_call_witness :
  let w := fresh (T := answering) () [] in
  fetch_interest_over_time w = (Returned empty_frame, w)
  ∧ get_interest_by_region COUNTRY w = (Returned empty_frame, w)
  ∧ get_related_queries w = (Returned None, w).
Proof. apply (no_keywords_no_call (H := answering)). reflexivity. Defined.

(** C1 (as amended): with keywords and an accepted payload,
    [get_interest_by_region] returns normally; the table is the
    provider's when the region call returned one and empty when the
    call raised or returned something else. *)
Theorem region_call_failure_is_empty `{TrendReq} (w : world)
    (resolution kw : pystr) (kws : list pystr) (s1 : session) :
  keywords (service w) = kw :: kws →
  build_payload (kw :: kws) (timeframe (service w)) (geo (service w))
                (pytrends (service w)) = (Returned (), s1) →
  ∃ df w', get_interest_by_region resolution w = (Returned df, w')
    ∧ df = match (interest_by_region resolution s1).1 with
           | Returned (PyFrame d) => d
           | Returned _ => empty_frame
           | Raised _ => empty_frame
           end.
Proof.
  intros Hk Hb. unfold get_interest_by_region, bind at 1, self. simpl.
  rewrite Hk. unfold bind at 1. rewrite (build_payload_run _ _ _ _ _ Hk Hb).
  unfold try_except, bind, on_pytrends, ret. simpl.
  destruct (interest_by_region resolution s1) as [[[d| |]|e] s2]; simpl; eauto.
Qed.

Lemma region_call_failure_is_empty_witness :
  ∃ df w', get_interest_by_region (T := no_regions) COUNTRY
             (fresh (T := no_regions) () [py "Python"]) = (Returned df, w')
    ∧ df = empty_frame.
Proof.
  apply (region_call_failure_is_empty (H := no_regions)
           (fresh (T := no_regions) () [py "Python"]) COUNTRY (py "Python") [] ());
    reflexivity.
Defined.

(** Whatever the provider, an exception of the payload build leaves
    [get_interest_by_region] with only that call made. *)
Lemma region_payload_failure_leaves `{TrendReq} (w : world)
    (resolution kw : pystr) (kws : list pystr) (e : exn) (s1 : session) :
  keywords (service w) = kw :: kws →
  build_payload (kw :: kws) (timeframe (service w)) (geo (service w))
                (pytrends (service w)) = (Raised e, s1) →
  ∃ w', get_interest_by_region resolution w = (Raised e, w')
        ∧ trace w' = trace w ++ [BuildPayload (kw :: kws) (timeframe (service w))
                                   (geo (service w))].
Proof.
  intros Hk Hb. unfold get_interest_by_region, bind at 1, self. simpl.
  rewrite Hk. unfold bind at 1. rewrite (build_payload_run _ _ _ _ _ Hk Hb).
  eauto.
Qed.

(** C1, the claim as written fails: an exception of the payload build
    leaves [get_interest_by_region], the [try] starts after it. *)
Lemma region_payload_failure_propagates :
  (get_interest_by_region (T := rate_limited) COUNTRY
     (fresh (T := rate_limited) () [py "Python"])).1
  = Raised (Exception
      (py "The request failed: Google returned a response with code 429")).
Proof. reflexivity. Qed.

(** C9: without keywords both tables are absent; with keywords and an
    accepted payload the result is the [top] and [rising] entry of the
    first keyword's bucket, an empty table replaced by [None]; a raising
    call, [None] and a missing bucket give two absent tables. *)
Theorem related_frames_of_first_keyword `{TrendReq} (w : world) :
  (keywords (service w) = [] →
     get_related_frames w = (Returned absent_frames, w))
  ∧ (∀ kw kws s1 r s2,
       keywords (service w) = kw :: kws →
       build_payload (kw :: kws) (timeframe (service w)) (geo (service w))
                     (pytrends (service w)) = (Returned (), s1) →
       related_queries s1 = (r, s2) →
       ∃ frames w', get_related_frames w = (Returned frames, w')
         ∧ (∀ d, top frames = PyFrame d ∨ rising frames = PyFrame d →
                 df_empty d = false)
         ∧ match r with
           | Returned (Some rq) =>
               top frames = absent_if_empty (first_bucket rq kw !! top_key)
               ∧ rising frames = absent_if_empty (first_bucket rq kw !! rising_key)
           | Returned None | Raised _ => frames = absent_frames
           end).
Proof.
  split.
  - intros Hk. unfold get_related_frames, get_related_queries, bind, self, ret.
    simpl. rewrite Hk. reflexivity.
  - intros kw kws s1 r s2 Hk Hb Hr.
    destruct (get_related_frames_run _ _ _ _ _ _ Hk Hb Hr) as (w' & Hrun).
    eexists _, w'. split; [exact Hrun|]. split.
    + assert (∀ found d, absent_if_empty found = PyFrame d → df_empty d = false)
        as Hclean.
      { intros [[d'| |]|] d; simpl; try discriminate.
        destruct (df_empty d') eqn:E; [discriminate|]. by intros [= <-]. }
      intros d. destruct r as [[rq|]|e]; simpl; intros [Hd|Hd];
        try discriminate; by eapply Hclean.
    + destruct r as [[rq|]|e]; done.
Qed.

Lemma related_frames_of_first_keyword_witness :
  ∃ frames w',
    get_related_frames (T := answering)
      (fresh (T := answering) () [py "Python"]) = (Returned frames, w')
    ∧ top frames = PyNone ∧ rising frames = PyFrame sample_rising.
Proof.
  destruct (related_frames_of_first_keyword (H := answering)
              (fresh (T := answering) () [py "Python"])) as [_ Hrun].
  destruct (Hrun (py "Python") [] () _ () eq_refl eq_refl eq_refl)
    as (frames & w' & Hf & _ & Htop & Hrising).
  exists frames, w'. split; [exact Hf|]. split.
  - rewrite Htop. vm_compute. reflexivity.
  - rewrite Hrising. vm_compute. reflexivity.
Defined.

(** ** The related-queries table *)

Lemma in_memory_lossless : Lossless in_memory.
Proof. by split. Qed.

Section RelatedTable.
Context {X : Transport} {L : Lossless X}.

Lemma update_related_table_top df rising_text :
  df_empty df = false →
  update_related_table
    (Some {| top_json := Some (to_json df); rising_json := rising_text |})
  = (column_defs df, to_records df, note_top).
Proof.
  intros Hdf. unfold update_related_table, store_truthy. simpl.
  rewrite to_json_truthy. simpl. rewrite read_to_json, Hdf. reflexivity.
Qed.

Lemma update_related_table_rising df :
  df_empty df = false →
  update_related_table
    (Some {| top_json := None; rising_json := Some (to_json df) |})
  = (column_defs df, to_records df, note_rising).
Proof.
  intros Hdf. unfold update_related_table, store_truthy. simpl.
  rewrite to_json_truthy. simpl. rewrite read_to_json, Hdf. reflexivity.
Qed.

(** A [top] table that reaches the store empty hides the rising rows. *)
Lemma update_related_table_empty_top df rising_text :
  df_empty df = true →
  update_related_table
    (Some {| top_json := Some (to_json df); rising_json := rising_text |})
  = ([], [], note_none).
Proof.
  intros Hdf. unfold update_related_table, store_truthy. simpl.
  rewrite to_json_truthy. simpl. rewrite read_to_json, Hdf. reflexivity.
Qed.

End RelatedTable.

(** C4 (as amended): when the provider's bucket for the first keyword
    has an empty [top] table and a [rising] table with rows, the
    gateway hands on [top] as [None], and the table callback, fed the
    bundle as [run_analysis] stores it, shows the rising rows under the
    rising note. *)
Theorem empty_top_shows_rising `{TrendReq} {X : Transport} {L : Lossless X}
    (w : world) (kw : pystr) (kws : list pystr) (s1 s2 : session)
    (rq : gmap pystr (option (gmap pystr pyval)))
    (bucket : gmap pystr pyval) (top_df rising_df : DataFrame) :
  keywords (service w) = kw :: kws →
  build_payload (kw :: kws) (timeframe (service w)) (geo (service w))
                (pytrends (service w)) = (Returned (), s1) →
  related_queries s1 = (Returned (Some rq), s2) →
  rq !! kw = Some (Some bucket) →
  bucket !! top_key = Some (PyFrame top_df) → df_empty top_df = true →
  bucket !! rising_key = Some (PyFrame rising_df) → df_empty rising_df = false →
  ∃ frames w',
    get_related_frames w = (Returned frames, w')
    ∧ top frames = PyNone
    ∧ update_related_table
        (Some {| top_json := frame_to_json (top frames);
                 rising_json := frame_to_json (rising frames) |})
      = (column_defs rising_df, to_records rising_df, note_rising).
Proof.
  intros Hk Hb Hr Hkw Htop Htop_empty Hrising Hrising_rows.
  destruct (get_related_frames_run _ _ _ _ _ _ Hk Hb Hr) as (w' & Hrun).
  eexists _, w'. split; [exact Hrun|].
  unfold first_bucket. rewrite Hkw, Htop, Hrising. simpl.
  rewrite Htop_empty, Hrising_rows. split; [reflexivity|].
  by apply update_related_table_rising.
Qed.

Lemma empty_top_shows_rising_witness :
  ∃ frames w',
    get_related_frames (T := answering)
      (fresh (T := answering) () [py "Python"]) = (Returned frames, w')
    ∧ top frames = PyNone
    ∧ update_related_table (X := in_memory)
        (Some {| top_json := frame_to_json (top frames);
                 rising_json := frame_to_json (rising frames) |})
      = (column_defs sample_rising, to_records sample_rising, note_rising).
Proof.
  eapply (empty_top_shows_rising (H := answering) (L := in_memory_lossless)
            (fresh (T := answering) () [py "Python"]) (py "Python") [] () ());
    reflexivity.
Defined.

(** C4, the claim as written fails: a bundle whose [top] is a table
    without rows and whose [rising] has three rows is rendered as no
    rows under the "no related queries" note. *)
Lemma empty_top_in_store_hides_rising :
  df_empty sample_empty_top = true
  ∧ length (data sample_rising) = 3
  ∧ update_related_table (X := in_memory)
      (Some {| top_json := Some (to_json sample_empty_top);
               rising_json := Some (to_json sample_rising) |})
    = ([], [], note_none).
Proof. split_and!; reflexivity. Qed.

(** ** The top regions *)

Lemma or_default_zero m : or_default (Some m) 0 = m.
Proof. unfold or_default. destruct (Z.eqb_spec m 0); congruence. Qed.

#[local] Instance ranks_before_total j : Total (ranks_before j).
Proof.
  intros r r'. unfold ranks_before, sorts_before.
  destruct (sort_key j r), (sort_key j r'); auto.
  destruct (Z.leb_spec z0 z); [by left|]. right. apply Z.leb_le. lia.
Qed.

#[local] Instance ranks_before_trans j : Transitive (ranks_before j).
Proof.
  intros r1 r2 r3. unfold ranks_before, sorts_before.
  destruct (sort_key j r1), (sort_key j r2), (sort_key j r3); try done.
  rewrite !Z.leb_le. lia.
Qed.

Lemma sort_values_desc_sorted j rs :
  StronglySorted (ranks_before j) (sort_values_desc j rs).
Proof. apply StronglySorted_merge_sort; apply _. Qed.

Lemma sort_values_desc_perm j rs : sort_values_desc j rs ≡ₚ rs.
Proof. apply merge_sort_Permutation. Qed.

Lemma head_rows_take {A} n (l : list A) : ∃ k, head_rows n l = take k l.
Proof. unfold head_rows. destruct (0 <=? n)%Z; eauto. Qed.


Lemma cell_ge_true c m :
  cell_ge c m = Returned true → ∃ z, cell_num c = Some z ∧ (m ≤ z)%Z.
Proof.
  destruct c as [z| |b|s]; simpl; intros [= H];
    eexists; (split; [reflexivity|by apply Z.leb_le]).
Qed.

Lemma filter_ge_passes j m rs kept :
  filter_ge j m rs = Returned kept → Forall (passes j m) kept.
Proof.
  revert kept. induction rs as [|r rs IH]; simpl; intros kept.
  - intros [= <-]. constructor.
  - destruct (cell_ge (cell_at j r.2) m) as [keep|] eqn:Hge; [|done].
    destruct (filter_ge j m rs) as [kept'|]; [|done].
    intros [= <-]. destruct keep; [|by apply IH].
    constructor; [|by apply IH]. by apply cell_ge_true.
Qed.






Lemma reset_index_returned df indexed :
  reset_index df = Returned indexed → indexed = index_as_column df.
Proof. unfold reset_index. destruct (_ && _); [done|]. by intros [= <-]. Qed.

Lemma reset_index_free df :
  ¬ (py "index" ∈ columns df ∧ py "level_0" ∈ columns df) →
  reset_index df = Returned (index_as_column df).
Proof.
  intros Hfree. unfold reset_index.
  destruct (_ && _) eqn:E; [|done].
  apply andb_true_iff in E as [?%bool_decide_eq_true ?%bool_decide_eq_true].
  by destruct Hfree.
Qed.




(** The example of the specification: column "Python", [min_interest=20],
    [top_n=3]. *)
Example top_regions_python :
  update_top_regions (X := in_memory) (Some sample_region) (Some sample_time)
                     (Some 20%Z) (Some 3%Z)
  = Returned (Some
      {| bar_frame :=
           {| index := [CInt 0; CInt 1; CInt 2];
              columns := [py "Region"; py "Python_interest"];
              data := [[CStr (py "Kenya"); CInt 100];
                       [CStr (py "Chad"); CInt 61];
                       [CStr (py "Nigeria"); CInt 35]] |};
         bar_x := py "Region";
         bar_y := py "Python_interest" |}).
Proof. vm_compute. reflexivity. Qed.


(** ** The analysis step *)

(** C5, evaluated through [run_analysis] at ["a,a"] with a provider that
    answers: one keyword is queried, nothing was cut off, and the alert
    says that only the first five keywords were used. *)
Lemma trimmed_alert_on_duplicate :
  let out := (run_analysis (X := in_memory) (U := latin1_only)
                (P := one_country) (T := answering)
                1 (Some (py "a,a")) None None
                (fresh (T := answering) () [])).1 in
  cleaned_keywords (py "a,a") = [py "a"]
  ∧ trimmed_flag (Some (py "a,a")) = true
  ∧ alert_is_open out = true
  ∧ alert_children out = msg_first_five.
Proof. vm_compute. split_and!; reflexivity. Qed.

(** * Further properties *)

(** ** The gateway: calls, errors and the stored query *)

Ltac run_gateway :=
  unfold get_top_related_for_first_keyword in *;
  unfold fetch_interest_over_time, get_interest_by_region, get_related_frames,
    get_related_queries, _build_payload,
    try_except, bind, self, ret, lift, sleep, on_pytrends, with_session in *;
  cbn [service trace pytrends keywords timeframe geo fst snd] in *.

Lemma parse_keywords_entries_nonempty raw : @nil N ∉ _parse_keywords raw.
Proof.
  unfold _parse_keywords. destruct raw as [|c raw]; cbn [truthy negb];
    [apply not_elem_of_nil|].
  rewrite cleaned_keywords_first_seen. intros Hin.
  apply subseteq_take in Hin. rewrite first_seen_elem_of in Hin.
  unfold nonempty_parts in Hin. apply list_elem_of_filter in Hin. naive_solver.
Qed.

Lemma filter_truthy_id (l : list pystr) :
  @nil N ∉ l → filter (λ k, truthy k = true) l = l.
Proof.
  induction l as [|k l IH]; [done|]. intros Hn.
  rewrite filter_cons_True.
  - f_equal. apply IH. set_solver.
  - destruct k; [|done]. set_solver.
Qed.

(** X1: [set_query] after the parser keeps every parsed keyword, stores
    a timeframe that is not empty, and makes no call. *)
Theorem set_query_keeps_parsed `{TrendReq} (raw : pystr) (tf : option pystr)
    (g : pystr) (w : world) :
  let w' := (set_query (_parse_keywords raw) tf g w).2 in
  keywords (service w') = _parse_keywords raw
  ∧ timeframe (service w') ≠ []
  ∧ (∀ t, tf = Some t → t ≠ [] → timeframe (service w') = t)
  ∧ geo (service w') = g
  ∧ pytrends (service w') = pytrends (service w)
  ∧ trace w' = trace w.
Proof.
  cbv zeta. unfold set_query. cbn [snd service keywords timeframe geo pytrends trace].
  split_and!; try done.
  - apply filter_truthy_id, parse_keywords_entries_nonempty.
  - by destruct tf as [[|c t]|].
  - intros t -> Ht. by destruct t.
Qed.

Lemma set_query_keeps_parsed_witness :
  let w' := (set_query (T := answering) (_parse_keywords (py "Python, 'R'"))
               (Some (py "today 12-m")) (py "NG")
               (fresh (T := answering) () [])).2 in
  keywords (service w') = [py "Python"; py "R"]
  ∧ timeframe (service w') = py "today 12-m".
Proof.
  cbv zeta.
  destruct (set_query_keeps_parsed (H := answering) (py "Python, 'R'")
              (Some (py "today 12-m")) (py "NG") (fresh (T := answering) () []))
    as (Hk & _ & Ht & _).
  split; [exact Hk|]. apply Ht; [reflexivity|discriminate].
Defined.

(** X2: [set_query] never stores an empty keyword, whatever list it is
    given, and storing the same query twice changes nothing. *)
Theorem set_query_filters_empty `{TrendReq} (kws : list pystr)
    (tf : option pystr) (g : pystr) (w : world) :
  let w' := (set_query kws tf g w).2 in
  (@nil N ∉ keywords (service w'))
  ∧ keywords (service w') `sublist_of` kws
  ∧ (set_query (keywords (service w')) (Some (timeframe (service w')))
               (geo (service w')) w').2 = w'.
Proof.
  cbv zeta. unfold set_query. cbn [snd service keywords timeframe geo pytrends trace].
  split_and!.
  - rewrite list_elem_of_filter. naive_solver.
  - apply sublist_filter.
  - f_equal. f_equal.
    + rewrite list_filter_filter. apply list_filter_iff. tauto.
    + by destruct tf as [[|c t]|].
Qed.

Section QueryKept.
Context {T : TrendReq}.

Lemma fetch_interest_over_time_same_query w :
  same_query w (fetch_interest_over_time w).2.
Proof. run_gateway. unfold same_query. repeat case_match; simplify_eq/=; done. Qed.

Lemma get_interest_by_region_same_query w resolution :
  same_query w (get_interest_by_region resolution w).2.
Proof. run_gateway. unfold same_query. repeat case_match; simplify_eq/=; done. Qed.

Lemma get_related_queries_same_query w : same_query w (get_related_queries w).2.
Proof. run_gateway. unfold same_query. repeat case_match; simplify_eq/=; done. Qed.

Lemma get_related_frames_same_query w : same_query w (get_related_frames w).2.
Proof.
  pose proof (get_related_queries_same_query w) as Hq.
  unfold get_related_frames, bind, self, ret.
  destruct (get_related_queries w) as [[rq|e] w1]; [|exact Hq].
  cbn [snd] in Hq. repeat case_match; simplify_eq/=; done.
Qed.

End QueryKept.

(** X3: no fetch method changes the stored keywords, timeframe or geo,
    whatever the provider answers or raises. *)
Theorem fetches_keep_query `{TrendReq} (w : world) (resolution : pystr) (top_n : Z) :
  same_query w (fetch_interest_over_time w).2
  ∧ same_query w (get_interest_by_region resolution w).2
  ∧ same_query w (get_related_queries w).2
  ∧ same_query w (get_related_frames w).2
  ∧ same_query w (get_top_related_for_first_keyword top_n w).2.
Proof.
  split_and!.
  - apply fetch_interest_over_time_same_query.
  - apply get_interest_by_region_same_query.
  - apply get_related_queries_same_query.
  - apply get_related_frames_same_query.
  - pose proof (get_related_frames_same_query w) as Hf.
    unfold get_top_related_for_first_keyword, bind, lift, ret.
    destruct (get_related_frames w) as [[frames|e] w1]; [|exact Hf].
    cbn [snd] in Hf. repeat case_match; simplify_eq/=; done.
Qed.

(** X4: [fetch_interest_over_time] has no [try]: an exception of the
    payload build leaves it before [interest_over_time] is called, and
    an exception of [interest_over_time] leaves it as well. *)
Theorem fetch_interest_over_time_raises `{TrendReq} (w : world)
    (kw : pystr) (kws : list pystr) :
  keywords (service w) = kw :: kws →
  let build := BuildPayload (kw :: kws) (timeframe (service w)) (geo (service w)) in
  (∀ e s1,
     build_payload (kw :: kws) (timeframe (service w)) (geo (service w))
                   (pytrends (service w)) = (Raised e, s1) →
     ∃ w', fetch_interest_over_time w = (Raised e, w')
           ∧ trace w' = trace w ++ [build])
  ∧ (∀ e s1 s2,
       build_payload (kw :: kws) (timeframe (service w)) (geo (service w))
                     (pytrends (service w)) = (Returned (), s1) →
       interest_over_time s1 = (Raised e, s2) →
       ∃ w', fetch_interest_over_time w = (Raised e, w')
             ∧ trace w' = trace w ++ [build; InterestOverTime]).
Proof.
  intros Hk. cbv zeta. split.
  - intros e s1 Hb. unfold fetch_interest_over_time, bind at 1, self. simpl.
    rewrite Hk. unfold bind at 1. rewrite (build_payload_run _ _ _ _ _ Hk Hb).
    eauto.
  - intros e s1 s2 Hb Hi. unfold fetch_interest_over_time, bind at 1, self. simpl.
    rewrite Hk. unfold bind at 1. rewrite (build_payload_run _ _ _ _ _ Hk Hb).
    unfold bind, on_pytrends, ret. simpl. rewrite Hi.
    eexists. split; [reflexivity|]. simpl. by rewrite <- app_assoc.
Qed.

Lemma fetch_interest_over_time_raises_witness :
  ∃ w', fetch_interest_over_time (T := rate_limited)
          (fresh (T := rate_limited) () [py "Python"])
        = (Raised (Exception
             (py "The request failed: Google returned a response with code 429")), w')
        ∧ trace w' = [BuildPayload [py "Python"] default_timeframe []].
Proof.
  destruct (fetch_interest_over_time_raises (H := rate_limited)
              (fresh (T := rate_limited) () [py "Python"]) (py "Python") []
              eq_refl) as [Hbuild _].
  apply (Hbuild _ ()). reflexivity.
Defined.

Lemma fetched_table_columns `{TrendReq} (w w' : world) (df : DataFrame) :
  fetch_interest_over_time w = (Returned df, w') →
  df_empty df = false →
  isPartial ∉ columns df.
Proof.
  run_gateway. intros Hrun Hdf.
  repeat case_match; simplify_eq/=; try done.
  - intros Hin. apply list_elem_of_filter in Hin. naive_solver.
  - rewrite Hdf in *. cbn in *. by case_bool_decide.
Qed.

(** X5: a table that [fetch_interest_over_time] returns with rows and
    columns has no ["isPartial"] column. *)
Theorem fetch_interest_over_time_no_isPartial `{TrendReq} (w w' : world)
    (df : DataFrame) :
  fetch_interest_over_time w = (Returned df, w') →
  df_empty df = false →
  isPartial ∉ columns df.
Proof. apply fetched_table_columns. Qed.

Lemma fetch_interest_over_time_no_isPartial_witness :
  isPartial ∉ columns (drop_column isPartial sample_time).
Proof.
  apply (fetch_interest_over_time_no_isPartial (H := answering)
           (fresh (T := answering) () [py "Python"])
           (with_session (T := answering) () InterestOverTime
              (with_session (T := answering) ()
                 (BuildPayload [py "Python"] default_timeframe [])
                 (fresh (T := answering) () [py "Python"])))).
  - reflexivity.
  - reflexivity.
Defined.

(** X6: [get_related_queries] after an accepted payload never raises: it
    hands on the provider's answer, or [None] when the call raised,
    after exactly the calls build, sleep(1), related_queries.  When the
    payload build raises, the exception leaves the method and there is
    neither a sleep nor a related_queries call. *)
Theorem get_related_queries_calls `{TrendReq} (w : world)
    (kw : pystr) (kws : list pystr) :
  keywords (service w) = kw :: kws →
  let build := BuildPayload (kw :: kws) (timeframe (service w)) (geo (service w)) in
  (∀ e s1,
     build_payload (kw :: kws) (timeframe (service w)) (geo (service w))
                   (pytrends (service w)) = (Raised e, s1) →
     ∃ w', get_related_queries w = (Raised e, w')
           ∧ trace w' = trace w ++ [build])
  ∧ (∀ r s1 s2,
       build_payload (kw :: kws) (timeframe (service w)) (geo (service w))
                     (pytrends (service w)) = (Returned (), s1) →
       related_queries s1 = (r, s2) →
       ∃ w', get_related_queries w
             = (Returned (match r with
                          | Returned found => found
                          | Raised _ => None
                          end), w')
             ∧ trace w' = trace w ++ [build; Sleep 1; RelatedQueries]).
Proof.
  intros Hk. cbv zeta. split.
  - intros e s1 Hb. unfold get_related_queries, bind at 1, self. simpl.
    rewrite Hk. unfold bind at 1. rewrite (build_payload_run _ _ _ _ _ Hk Hb).
    eauto.
  - intros r s1 s2 Hb Hr. unfold get_related_queries, bind at 1, self. simpl.
    rewrite Hk. unfold bind at 1. rewrite (build_payload_run _ _ _ _ _ Hk Hb).
    unfold bind, sleep, try_except, on_pytrends, ret. simpl. rewrite Hr.
    destruct r; (eexists; split; [reflexivity|]); simpl;
      by rewrite <- !app_assoc.
Qed.

Lemma get_related_queries_calls_witness :
  ∃ w', get_related_queries (T := no_regions)
          (fresh (T := no_regions) () [py "Python"]) = (Returned None, w')
        ∧ trace w' = [BuildPayload [py "Python"] default_timeframe [];
                       Sleep 1; RelatedQueries].
Proof.
  destruct (get_related_queries_calls (H := no_regions)
              (fresh (T := no_regions) () [py "Python"]) (py "Python") []
              eq_refl) as [_ Hrun].
  apply (Hrun (Returned None) () ()); reflexivity.
Defined.

(** X7: the legacy method raises the [ValueError] of a table's truth
    value whenever the first keyword has a [top] table with rows, and
    returns the first [top_n] rising rows when [top] is absent or empty
    and [rising] has rows. *)
Theorem get_top_related_raises_on_top `{TrendReq} (w : world)
    (kw : pystr) (kws : list pystr) (s1 s2 : session)
    (rq : gmap pystr (option (gmap pystr pyval))) (top_n : Z) :
  keywords (service w) = kw :: kws →
  build_payload (kw :: kws) (timeframe (service w)) (geo (service w))
                (pytrends (service w)) = (Returned (), s1) →
  related_queries s1 = (Returned (Some rq), s2) →
  (∀ top_df, first_bucket rq kw !! top_key = Some (PyFrame top_df) →
     df_empty top_df = false →
     (get_top_related_for_first_keyword top_n w).1 = Raised ambiguous_truth)
  ∧ (∀ rising_df,
       absent_if_empty (first_bucket rq kw !! top_key) = PyNone →
       first_bucket rq kw !! rising_key = Some (PyFrame rising_df) →
       df_empty rising_df = false →
       (get_top_related_for_first_keyword top_n w).1
       = Returned (Some (head_frame top_n rising_df))).
Proof.
  intros Hk Hb Hr.
  destruct (get_related_frames_run _ _ _ _ _ _ Hk Hb Hr) as (w' & Hrun).
  unfold get_top_related_for_first_keyword, bind, lift, ret. rewrite Hrun.
  cbn [top rising]. split.
  - intros top_df -> Hrows. unfold absent_if_empty. rewrite Hrows. reflexivity.
  - intros rising_df -> -> Hrows. unfold absent_if_empty. rewrite Hrows.
    cbn. rewrite Hrows. reflexivity.
Qed.

Lemma get_top_related_raises_on_top_witness :
  (get_top_related_for_first_keyword (T := top_available) 10
     (fresh (T := top_available) () [py "Python"])).1 = Raised ambiguous_truth
  ∧ (get_top_related_for_first_keyword (T := answering) 2
       (fresh (T := answering) () [py "Python"])).1
    = Returned (Some (head_frame 2 sample_rising)).
Proof.
  split.
  - destruct (get_top_related_raises_on_top (H := top_available)
                (fresh (T := top_available) () [py "Python"]) (py "Python") []
                () () _ 10 eq_refl eq_refl eq_refl) as [Htop _].
    apply (Htop sample_rising); reflexivity.
  - destruct (get_top_related_raises_on_top (H := answering)
                (fresh (T := answering) () [py "Python"]) (py "Python") []
                () () _ 2 eq_refl eq_refl eq_refl) as [_ Hrising].
    apply (Hrising sample_rising); reflexivity.
Defined.

(** ** The keyword parser and the truncation flag *)

Lemma filter_full_length {A} (P : A → Prop) `{∀ x, Decision (P x)} (l : list A) :
  length (filter P l) = length l → filter P l = l.
Proof.
  induction l as [|x l IH]; [done|].
  rewrite filter_cons. case_decide; simpl.
  - intros [= Hl]. f_equal. by apply IH.
  - pose proof (length_filter P l). lia.
Qed.

Lemma first_seen_full_length l : length (first_seen l) = length l → first_seen l = l.
Proof.
  induction l as [|x l IH]; [done|]. simpl. intros [= Hl].
  pose proof (length_filter (λ y, y ≠ x) (first_seen l)) as Hf.
  pose proof (first_seen_length l) as Hs.
  rewrite filter_full_length by lia. f_equal. apply IH. lia.
Qed.

(** X8: when more than five entries are left after the loop, the flag
    that lets the caller tell the user is raised. *)
Theorem truncation_raises_flag (raw : pystr) :
  5 < length (cleaned_keywords raw) →
  trimmed_flag (Some raw) = true
  ∧ _parse_keywords raw = take 5 (cleaned_keywords raw)
  ∧ length (_parse_keywords raw) = 5.
Proof.
  intros Hlen. split; [by apply truncation_sets_flag|].
  destruct raw as [|c raw]; [vm_compute in Hlen; lia|].
  unfold _parse_keywords. cbn [truthy negb]. split; [done|].
  rewrite length_take. lia.
Qed.

Lemma truncation_raises_flag_witness :
  trimmed_flag (Some (py "a,b,c,d,e,f,g")) = true
  ∧ _parse_keywords (py "a,b,c,d,e,f,g") = take 5 (cleaned_keywords (py "a,b,c,d,e,f,g"))
  ∧ length (_parse_keywords (py "a,b,c,d,e,f,g")) = 5.
Proof. apply truncation_raises_flag. vm_compute. lia. Defined.

(** X9: when the flag is not raised, nothing was dropped: the parsed
    list is the list of all cleaned, non-empty parts, none of them
    repeated and none cut off. *)
Theorem flag_down_nothing_dropped (raw : pystr) :
  trimmed_flag (Some raw) = false →
  _parse_keywords raw = nonempty_parts raw
  ∧ NoDup (nonempty_parts raw)
  ∧ length (nonempty_parts raw) ≤ 5
  ∧ user_count raw = length (_parse_keywords raw).
Proof.
  unfold trimmed_flag, _parse_keywords.
  destruct raw as [|c raw]; cbn [truthy negb].
  - intros _. vm_compute. split_and!; [done|constructor|lia|done].
  - intros Hflag. apply bool_decide_eq_false in Hflag.
    rewrite cleaned_keywords_first_seen in *.
    pose proof (nonempty_parts_count (c :: raw)) as Hn.
    pose proof (first_seen_length (nonempty_parts (c :: raw))) as Hf.
    rewrite length_take in Hflag.
    assert (first_seen (nonempty_parts (c :: raw)) = nonempty_parts (c :: raw))
      as Hsame by (apply first_seen_full_length; lia).
    rewrite Hsame in *. split_and!.
    + apply take_ge. lia.
    + rewrite <- Hsame. apply first_seen_NoDup.
    + lia.
    + rewrite length_take. lia.
Qed.

Lemma flag_down_nothing_dropped_witness :
  _parse_keywords (py "Python, 'Data Science'") = nonempty_parts (py "Python, 'Data Science'")
  ∧ NoDup (nonempty_parts (py "Python, 'Data Science'"))
  ∧ length (nonempty_parts (py "Python, 'Data Science'")) ≤ 5
  ∧ user_count (py "Python, 'Data Science'")
    = length (_parse_keywords (py "Python, 'Data Science'")).
Proof. apply flag_down_nothing_dropped. reflexivity. Defined.

(** ** The analysis step *)

Section CallLog.
Context {T : TrendReq}.

Lemma fetch_interest_over_time_log w kw kws :
  keywords (service w) = kw :: kws →
  let build := BuildPayload (kw :: kws) (timeframe (service w)) (geo (service w)) in
  match fetch_interest_over_time w with
  | (Returned _, w') => trace w' = trace w ++ [build; InterestOverTime]
  | (Raised _, w') =>
      trace w' = trace w ++ [build]
      ∨ trace w' = trace w ++ [build; InterestOverTime]
  end.
Proof.
  intros Hk. cbv zeta. unfold fetch_interest_over_time, bind at 1, self. simpl.
  rewrite Hk. unfold bind at 1.
  destruct (build_payload (kw :: kws) (timeframe (service w)) (geo (service w))
              (pytrends (service w))) as [[[]|e] s1] eqn:Hb;
    rewrite (build_payload_run _ _ _ _ _ Hk Hb); [|by left].
  unfold bind, on_pytrends, ret. simpl.
  destruct (interest_over_time s1) as [[[d| |]|e] s2]; simpl;
    rewrite <- ?app_assoc; try done; [|by right].
  destruct (_ && _); simpl; by rewrite <- app_assoc.
Qed.

Lemma get_interest_by_region_log w kw kws resolution :
  keywords (service w) = kw :: kws →
  let build := BuildPayload (kw :: kws) (timeframe (service w)) (geo (service w)) in
  match get_interest_by_region resolution w with
  | (Returned _, w') => trace w' = trace w ++ [build; InterestByRegion resolution]
  | (Raised _, w') => trace w' = trace w ++ [build]
  end.
Proof.
  intros Hk. cbv zeta. unfold get_interest_by_region, bind at 1, self. simpl.
  rewrite Hk. unfold bind at 1.
  destruct (build_payload (kw :: kws) (timeframe (service w)) (geo (service w))
              (pytrends (service w))) as [[[]|e] s1] eqn:Hb;
    rewrite (build_payload_run _ _ _ _ _ Hk Hb); [|done].
  unfold try_except, bind, on_pytrends, ret. simpl.
  destruct (interest_by_region resolution s1) as [[[d| |]|e] s2]; simpl;
    by rewrite <- ?app_assoc.
Qed.

Lemma get_related_frames_log w kw kws :
  keywords (service w) = kw :: kws →
  let build := BuildPayload (kw :: kws) (timeframe (service w)) (geo (service w)) in
  match get_related_frames w with
  | (Returned _, w') => trace w' = trace w ++ [build; Sleep 1; RelatedQueries]
  | (Raised _, w') => trace w' = trace w ++ [build]
  end.
Proof.
  intros Hk. cbv zeta.
  destruct (build_payload (kw :: kws) (timeframe (service w)) (geo (service w))
              (pytrends (service w))) as [[[]|e] s1] eqn:Hb.
  - destruct (related_queries s1) as [r s2] eqn:Hr.
    assert (∃ w', get_related_queries w
                  = (Returned (match r with Returned found => found
                               | Raised _ => None end), w')
                  ∧ trace w' = trace w ++ [BuildPayload (kw :: kws)
                                 (timeframe (service w)) (geo (service w));
                               Sleep 1; RelatedQueries]) as (w' & Hq & Hlog).
    { unfold get_related_queries, bind at 1, self. simpl.
      rewrite Hk. unfold bind at 1. rewrite (build_payload_run _ _ _ _ _ Hk Hb).
      unfold bind, sleep, try_except, on_pytrends, ret. simpl. rewrite Hr.
      destruct r; (eexists; split; [reflexivity|]); simpl;
        by rewrite <- !app_assoc. }
    unfold get_related_frames, bind at 1. rewrite Hq.
    unfold bind, self, ret. cbn [fst snd]. repeat case_match; simplify_eq/=; done.
  - unfold get_related_frames, bind at 1.
    unfold get_related_queries, bind at 1, self. simpl.
    rewrite Hk. unfold bind at 1. rewrite (build_payload_run _ _ _ _ _ Hk Hb).
    done.
Qed.

End CallLog.

Section AnalysisFacts.
Context {X : Transport} {U : Unicode} {P : Pycountry} {T : TrendReq}.

(** [run_analysis] step by step, once the parser has found keywords. *)
Lemma run_analysis_steps n_clicks keywords_raw tf country_raw w kw kws :
  _parse_keywords (default [] keywords_raw) = kw :: kws →
  let w1 := (set_query (kw :: kws) tf (resolved_geo country_raw) w).2 in
  run_analysis n_clicks keywords_raw tf country_raw w
  = match fetch_interest_over_time w1 with
    | (Raised e, w2) => (alert_only (py "Something went wrong: " ++ str_of_exn e), w2)
    | (Returned time_df, w2) =>
        match get_interest_by_region COUNTRY w2 with
        | (Raised e, w3) =>
            (alert_only (py "Something went wrong: " ++ str_of_exn e), w3)
        | (Returned region_df, w3) =>
            match get_related_frames w3 with
            | (Raised e, w4) =>
                (alert_only (py "Something went wrong: " ++ str_of_exn e), w4)
            | (Returned frames, w4) =>
                (analysis_outputs (trimmed_flag keywords_raw)
                   time_df region_df frames, w4)
            end
        end
    end.
Proof.
  intros Hparse. cbv zeta. unfold run_analysis, analysis. rewrite Hparse.
  unfold resolved_geo, bind at 1, lift.
  destruct (get_country_code_returns (default [] country_raw)) as [g ->].
  unfold bind at 1. cbn [set_query snd].
  unfold bind at 1.
  destruct (fetch_interest_over_time _) as [[time_df|e] w2]; [|done].
  unfold bind at 1.
  destruct (get_interest_by_region COUNTRY w2) as [[region_df|e] w3]; [|done].
  unfold bind at 1.
  destruct (get_related_frames w3) as [[frames|e] w4]; [|done].
  unfold analysis_outputs, ret.
  destruct (df_empty time_df); [done|].
  by destruct (trimmed_flag keywords_raw).
Qed.

Lemma set_query_world kw kws tf g w :
  @nil N ∉ kw :: kws →
  let w1 := (set_query (kw :: kws) tf g w).2 in
  keywords (service w1) = kw :: kws
  ∧ timeframe (service w1) = timeframe_or_default tf
  ∧ geo (service w1) = g
  ∧ trace w1 = trace w.
Proof.
  intros Hn. cbv zeta. unfold set_query.
  cbn [snd service keywords timeframe geo trace].
  split_and!; try done. by apply filter_truthy_id.
Qed.

End AnalysisFacts.

Lemma run_analysis_without_keywords_steps {X : Transport} `{Unicode}
    `{Pycountry} `{TrendReq} n_clicks keywords_raw tf country_raw w :
  _parse_keywords (default [] keywords_raw) = [] →
  run_analysis n_clicks keywords_raw tf country_raw w
  = (alert_only (py "Please enter at least one keyword."), w).
Proof. intros Hparse. unfold run_analysis, analysis. by rewrite Hparse. Qed.

(** X10: when the parser finds no keyword ([None], an empty field, only
    commas, blanks and quotes), [run_analysis] answers with the
    "enter at least one keyword" alert, stores nothing, and leaves the
    gateway and the call log as they were. *)
Theorem run_analysis_without_keywords {X : Transport} `{Unicode} `{Pycountry}
    `{TrendReq} (n_clicks : N) (keywords_raw tf country_raw : option pystr)
    (w : world) :
  _parse_keywords (default [] keywords_raw) = [] →
  run_analysis n_clicks keywords_raw tf country_raw w
  = ({| store_time_df := None; store_region_df := None; store_related := None;
        alert_is_open := true;
        alert_children := py "Please enter at least one keyword." |}, w).
Proof. apply run_analysis_without_keywords_steps. Qed.

Lemma run_analysis_without_keywords_witness :
  run_analysis (X := in_memory) (U := latin1_only) (P := one_country)
    (T := answering) 1 (Some (py " , '' ,")) None None
    (fresh (T := answering) () [])
  = ({| store_time_df := None; store_region_df := None; store_related := None;
        alert_is_open := true;
        alert_children := py "Please enter at least one keyword." |},
     fresh (T := answering) () []).
Proof.
  apply (run_analysis_without_keywords (X := in_memory) (H := latin1_only)
           (H0 := one_country) (H1 := answering)).
  vm_compute. reflexivity.
Defined.

(** X11: when the provider refuses the first payload, [run_analysis]
    answers with the generic alert carrying the error text, stores
    nothing, and has made that one call only. *)
Theorem run_analysis_payload_refused {X : Transport} `{Unicode} `{Pycountry}
    `{TrendReq} (n_clicks : N) (keywords_raw tf country_raw : option pystr)
    (w : world) (kw : pystr) (kws : list pystr) (e : exn) (s1 : session) :
  _parse_keywords (default [] keywords_raw) = kw :: kws →
  build_payload (kw :: kws) (timeframe_or_default tf) (resolved_geo country_raw)
                (pytrends (service w)) = (Raised e, s1) →
  ∃ w', run_analysis n_clicks keywords_raw tf country_raw w
        = (alert_only (py "Something went wrong: " ++ str_of_exn e), w')
        ∧ trace w' = trace w ++ [BuildPayload (kw :: kws) (timeframe_or_default tf)
                                   (resolved_geo country_raw)].
Proof.
  intros Hparse Hb.
  rewrite (run_analysis_steps _ _ _ _ _ _ _ Hparse). cbv zeta.
  assert (@nil N ∉ kw :: kws) as Hn
    by (rewrite <- Hparse; apply parse_keywords_entries_nonempty).
  destruct (set_query_world kw kws tf (resolved_geo country_raw) w Hn)
    as (Hk & Ht & Hg & Hlog).
  set (w1 := (set_query (kw :: kws) tf (resolved_geo country_raw) w).2) in *.
  assert (pytrends (service w1) = pytrends (service w)) as Hs by reflexivity.
  clearbody w1.
  unfold fetch_interest_over_time, bind at 1, self. simpl.
  rewrite Hk. unfold bind at 1.
  erewrite build_payload_run; [|exact Hk|rewrite Ht, Hg, Hs; exact Hb].
  eexists. split; [reflexivity|]. simpl. by rewrite Hlog, Ht, Hg.
Qed.

Lemma run_analysis_payload_refused_witness :
  ∃ w', run_analysis (X := in_memory) (U := latin1_only) (P := one_country)
          (T := rate_limited) 1 (Some (py "Python")) None (Some (py "ng"))
          (fresh (T := rate_limited) () [])
        = (alert_only (py "Something went wrong: The request failed: Google returned a response with code 429"), w')
        ∧ trace w' = [BuildPayload [py "Python"] default_timeframe (py "NG")].
Proof.
  destruct (run_analysis_payload_refused (X := in_memory) (H := latin1_only)
              (H0 := one_country) (H1 := rate_limited) 1 (Some (py "Python")) None
              (Some (py "ng")) (fresh (T := rate_limited) () []) (py "Python") []
              (Exception (py "The request failed: Google returned a response with code 429"))
              () eq_refl eq_refl) as (w' & Hrun & Hlog).
  exists w'. split; [exact Hrun|exact Hlog].
Defined.

(** X12: the outputs of [run_analysis] hang together: a region table is
    only stored beside a time table, a time table only beside the
    related bundle, and when the alert stays closed the time table is
    stored, the message is empty and the flag was not raised. *)
Theorem run_analysis_stores {X : Transport} `{Unicode} `{Pycountry} `{TrendReq}
    (n_clicks : N) (keywords_raw tf country_raw : option pystr) (w : world) :
  let out := (run_analysis n_clicks keywords_raw tf country_raw w).1 in
  (store_region_df out ≠ None → store_time_df out ≠ None)
  ∧ (store_time_df out ≠ None → store_related out ≠ None)
  ∧ (alert_is_open out = false →
       store_time_df out ≠ None ∧ alert_children out = []
       ∧ trimmed_flag keywords_raw = false)
  ∧ (alert_children out = [] → alert_is_open out = false).
Proof.
  cbv zeta.
  destruct (_parse_keywords (default [] keywords_raw)) as [|kw kws] eqn:Hparse.
  - rewrite run_analysis_without_keywords_steps by done. cbn. naive_solver.
  - rewrite (run_analysis_steps _ _ _ _ _ _ _ Hparse). cbv zeta.
    destruct (fetch_interest_over_time _) as [[time_df|e] w2];
      [|cbn; naive_solver].
    destruct (get_interest_by_region COUNTRY w2) as [[region_df|e] w3];
      [|cbn; naive_solver].
    destruct (get_related_frames w3) as [[frames|e] w4]; [|cbn; naive_solver].
    unfold analysis_outputs.
    destruct (df_empty time_df), (df_empty region_df),
      (trimmed_flag keywords_raw); cbn; naive_solver.
Qed.

Lemma run_analysis_stores_witness :
  let out := (run_analysis (X := in_memory) (U := latin1_only)
                (P := one_country) (T := answering) 1 (Some (py "Python"))
                None None (fresh (T := answering) () [])).1 in
  store_time_df out ≠ None ∧ alert_children out = []
  ∧ trimmed_flag (Some (py "Python")) = false.
Proof.
  cbv zeta.
  destruct (run_analysis_stores (X := in_memory) (H := latin1_only)
              (H0 := one_country) (H1 := answering) 1 (Some (py "Python"))
              None None (fresh (T := answering) () []))
    as (_ & _ & Hclosed & _).
  apply Hclosed. vm_compute. reflexivity.
Defined.

(** X13: what [run_analysis] puts into the time store reads back, over
    a lossless transport, as a table with rows and columns and without
    an ["isPartial"] column, so that [update_time_series] draws one line
    for each of its columns; a stored region table has rows too. *)
Theorem run_analysis_time_store {X : Transport} {L : Lossless X} `{Unicode}
    `{Pycountry} `{TrendReq}
    (n_clicks : N) (keywords_raw tf country_raw : option pystr) (w : world) :
  let out := (run_analysis n_clicks keywords_raw tf country_raw w).1 in
  (∀ text, store_time_df out = Some text →
     df_empty (read_json text) = false
     ∧ (isPartial ∉ columns (read_json text))
     ∧ update_time_series (Some text)
       = Some {| line_frame := read_json text;
                 line_x := index (read_json text);
                 line_y := columns (read_json text) |})
  ∧ (∀ text, store_region_df out = Some text → df_empty (read_json text) = false).
Proof.
  cbv zeta.
  destruct (_parse_keywords (default [] keywords_raw)) as [|kw kws] eqn:Hparse.
  - rewrite run_analysis_without_keywords_steps by done. cbn. naive_solver.
  - rewrite (run_analysis_steps _ _ _ _ _ _ _ Hparse). cbv zeta.
    destruct (fetch_interest_over_time _) as [[time_df|e] w2] eqn:Hfetch;
      [|cbn; naive_solver].
    destruct (get_interest_by_region COUNTRY w2) as [[region_df|e] w3];
      [|cbn; naive_solver].
    destruct (get_related_frames w3) as [[frames|e] w4]; [|cbn; naive_solver].
    unfold analysis_outputs.
    destruct (df_empty time_df) eqn:Htime; [cbn; naive_solver|].
    cbn [fst store_time_df store_region_df]. split.
    + intros text [= <-]. rewrite read_to_json. split_and!.
      * exact Htime.
      * by eapply fetched_table_columns.
      * unfold update_time_series, store_truthy, plot_interest_over_time.
        by rewrite to_json_truthy, read_to_json, Htime.
    + intros text. destruct (df_empty region_df) eqn:Hregion; cbn; [done|].
      intros [= <-]. by rewrite read_to_json.
Qed.

Lemma run_analysis_time_store_witness :
  let out := (run_analysis (X := in_memory) (U := latin1_only)
                (P := one_country) (T := answering) 1 (Some (py "Python"))
                None None (fresh (T := answering) () [])).1 in
  store_time_df out = Some (drop_column isPartial sample_time)
  ∧ isPartial ∉ columns (drop_column isPartial sample_time).
Proof.
  cbv zeta. split; [reflexivity|].
  destruct (run_analysis_time_store (X := in_memory) (L := in_memory_lossless)
              (H := latin1_only) (H0 := one_country) (H1 := answering)
              1 (Some (py "Python")) None None (fresh (T := answering) () []))
    as [Htime _].
  destruct (Htime (drop_column isPartial sample_time) eq_refl) as (_ & Hcols & _).
  exact Hcols.
Defined.

(** X14: the calls of one [run_analysis] are a prefix of build,
    interest_over_time, build, interest_by_region, build, sleep(1),
    related_queries, all for the parsed keywords, the chosen timeframe
    and the resolved geo; they are all made whenever the related bundle
    is stored, and none is made without keywords. *)
Theorem run_analysis_call_log {X : Transport} `{Unicode} `{Pycountry} `{TrendReq}
    (n_clicks : N) (keywords_raw tf country_raw : option pystr) (w : world) :
  let result := run_analysis n_clicks keywords_raw tf country_raw w in
  let kws := _parse_keywords (default [] keywords_raw) in
  let full := analysis_calls kws (timeframe_or_default tf)
                (resolved_geo country_raw) in
  ∃ calls, trace result.2 = trace w ++ calls
    ∧ calls `prefix_of` full
    ∧ (store_related result.1 ≠ None → calls = full)
    ∧ (kws = [] → calls = []).
Proof.
  cbv zeta.
  destruct (_parse_keywords (default [] keywords_raw)) as [|kw kws] eqn:Hparse.
  - rewrite run_analysis_without_keywords_steps by done. exists [].
    cbn. rewrite app_nil_r. split_and!; try done. apply prefix_nil.
  - rewrite (run_analysis_steps _ _ _ _ _ _ _ Hparse). cbv zeta.
    assert (@nil N ∉ kw :: kws) as Hn
      by (rewrite <- Hparse; apply parse_keywords_entries_nonempty).
    destruct (set_query_world kw kws tf (resolved_geo country_raw) w Hn)
      as (Hk & Ht & Hg & Hlog).
    set (w1 := (set_query (kw :: kws) tf (resolved_geo country_raw) w).2) in *.
    clearbody w1.
    pose proof (fetch_interest_over_time_log w1 kw kws Hk) as Hlog1.
    pose proof (fetch_interest_over_time_same_query w1) as (Hk2 & Ht2 & Hg2).
    cbv zeta in Hlog1. rewrite Ht, Hg, Hlog in Hlog1.
    unfold analysis_calls.
    destruct (fetch_interest_over_time w1) as [[time_df|e] w2]; cbn [fst snd] in *.
    2:{ destruct Hlog1 as [-> | ->]; eexists; (split; [reflexivity|]);
          cbn; (split_and!; [by eexists|done|done]). }
    rewrite Hk in Hk2. rewrite Ht in Ht2. rewrite Hg in Hg2.
    pose proof (get_interest_by_region_log w2 kw kws COUNTRY Hk2) as Hlog2.
    pose proof (get_interest_by_region_same_query w2 COUNTRY) as (Hk3 & Ht3 & Hg3).
    cbv zeta in Hlog2. rewrite Ht2, Hg2, Hlog1 in Hlog2.
    destruct (get_interest_by_region COUNTRY w2) as [[region_df|e] w3];
      cbn [fst snd] in *.
    2:{ rewrite Hlog2, <- app_assoc. eexists; (split; [reflexivity|]).
        cbn. split_and!; [by eexists|done|done]. }
    rewrite Hk2 in Hk3. rewrite Ht2 in Ht3. rewrite Hg2 in Hg3.
    pose proof (get_related_frames_log w3 kw kws Hk3) as Hlog3.
    cbv zeta in Hlog3. rewrite Ht3, Hg3, Hlog2 in Hlog3.
    destruct (get_related_frames w3) as [[frames|e] w4]; cbn [fst snd] in *.
    2:{ rewrite Hlog3, <- !app_assoc. eexists; (split; [reflexivity|]).
        cbn. split_and!; [by eexists|done|done]. }
    rewrite Hlog3, <- !app_assoc. eexists; (split; [reflexivity|]).
    cbn. split_and!; done.
Qed.

Lemma run_analysis_call_log_witness :
  trace (run_analysis (X := in_memory) (U := latin1_only) (P := one_country)
           (T := answering) 1 (Some (py "Python")) None (Some (py "ng"))
           (fresh (T := answering) () [])).2
  = analysis_calls [py "Python"] default_timeframe (py "NG").
Proof.
  destruct (run_analysis_call_log (X := in_memory) (H := latin1_only)
              (H0 := one_country) (H1 := answering) 1 (Some (py "Python")) None
              (Some (py "ng")) (fresh (T := answering) () []))
    as (calls & Hlog & _ & Hfull & _).
  rewrite Hlog. apply Hfull. vm_compute. discriminate.
Defined.

(** ** The related-queries table, once more *)

Lemma to_records_keys df :
  well_formed df →
  Forall (λ record, record.*1 = columns df) (to_records df).
Proof.
  intros [_ Hrows]. unfold to_records. apply Forall_fmap.
  eapply Forall_impl; [exact Hrows|]. intros row Hlen. cbn [compose].
  apply fst_zip. by rewrite Hlen.
Qed.

(** X15: when the stored [top] table has rows it is the one shown, under
    the "top" note, whatever the [rising] store holds; the table gets
    one column definition for each column, one record for each row, and
    every record has exactly the column ids as keys, in their order. *)
Theorem related_table_shows_top {X : Transport} {L : Lossless X}
    (top_df : DataFrame) (rising_text : option json) :
  df_empty top_df = false →
  well_formed top_df →
  ∃ cols records,
    update_related_table
      (Some {| top_json := Some (to_json top_df); rising_json := rising_text |})
    = (cols, records, note_top)
    ∧ id <$> cols = columns top_df
    ∧ name <$> cols = columns top_df
    ∧ length records = length (index top_df)
    ∧ Forall (λ record, record.*1 = id <$> cols) records.
Proof.
  intros Hrows Hwf. rewrite update_related_table_top by done.
  eexists _, _. split; [reflexivity|].
  assert (id <$> column_defs top_df = columns top_df) as Hid.
  { unfold column_defs. rewrite <- list_fmap_compose. apply list_fmap_id. }
  split_and!.
  - exact Hid.
  - unfold column_defs. rewrite <- list_fmap_compose. apply list_fmap_id.
  - unfold to_records. rewrite length_fmap. apply Hwf.
  - rewrite Hid. by apply to_records_keys.
Qed.

Lemma related_table_shows_top_witness :
  ∃ cols records,
    update_related_table (X := in_memory)
      (Some {| top_json := Some (to_json sample_rising);
               rising_json := Some (to_json sample_rising) |})
    = (cols, records, note_top)
    ∧ id <$> cols = columns sample_rising
    ∧ name <$> cols = columns sample_rising
    ∧ length records = length (index sample_rising)
    ∧ Forall (λ record, record.*1 = id <$> cols) records.
Proof.
  apply (related_table_shows_top (L := in_memory_lossless)); [reflexivity|].
  split; [reflexivity|]. repeat constructor.
Defined.

(** ** The top regions, once more *)

Lemma filter_ge_sublist j m rs kept :
  filter_ge j m rs = Returned kept → kept `sublist_of` rs.
Proof.
  revert kept. induction rs as [|r rs IH]; simpl; intros kept.
  - intros [= <-]. constructor.
  - destruct (cell_ge (cell_at j r.2) m) as [keep|]; [|done].
    destruct (filter_ge j m rs) as [kept'|]; [|done].
    intros [= <-]. destruct keep; [apply sublist_skip|apply sublist_cons]; by apply IH.
Qed.

Lemma cell_ge_passes c m z :
  cell_num c = Some z → (m ≤ z)%Z → cell_ge c m = Returned true.
Proof.
  destruct c as [x| |b|s]; simpl; try done; intros [= <-] Hm; f_equal;
    by apply Z.leb_le.
Qed.

Lemma filter_ge_complete j m rs kept r :
  filter_ge j m rs = Returned kept → r ∈ rs → passes j m r → r ∈ kept.
Proof.
  revert kept. induction rs as [|r' rs IH]; simpl; intros kept; [set_solver|].
  destruct (cell_ge (cell_at j r'.2) m) as [keep|] eqn:Hge; [|done].
  destruct (filter_ge j m rs) as [kept'|]; [|done].
  intros [= <-] Hin (z & Hz & Hm). apply elem_of_cons in Hin as [->|Hin].
  - unfold sort_key in Hz. rewrite (cell_ge_passes _ _ _ Hz Hm) in Hge.
    injection Hge as <-. set_solver.
  - assert (r ∈ kept') by (apply IH; [done|done|by exists z]).
    destruct keep; set_solver.
Qed.

Lemma filter_ge_below j m rs :
  Forall (λ r, ∃ z, sort_key j r = Some z ∧ (z < m)%Z) rs →
  filter_ge j m rs = Returned [].
Proof.
  induction 1 as [|r rs (z & Hz & Hm) _ IH]; [done|]. simpl. rewrite IH.
  unfold sort_key in Hz.
  destruct (cell_at j r.2) as [x| |b|s]; simpl in *; try done;
    injection Hz as <-; by rewrite (proj2 (Z.leb_gt _ _)).
Qed.

Section TopRegionsFigure.
Context {X : Transport}.

(** The rows of the figure, read off [update_top_regions]. *)
Lemma update_top_regions_rows region_text time_text min_interest top_n
    kw others j kept fig :
  columns (read_json time_text) = kw :: others →
  position kw (columns (read_json region_text)) = Some j →
  filter_ge j (or_default min_interest 0) (rows (read_json region_text))
  = Returned kept →
  update_top_regions (Some region_text) (Some time_text) min_interest top_n
  = Returned (Some fig) →
  data (bar_frame fig)
  = (λ r, r.1 :: r.2) <$> head_rows (or_default top_n 10) (sort_values_desc j kept).
Proof.
  intros Hcols Hpos Hkept. unfold update_top_regions.
  destruct (_ || _); [done|]. rewrite Hcols, Hpos, Hkept.
  destruct (df_empty _); [done|]. unfold plot_top_regions.
  destruct (_ || _); [done|].
  destruct (reset_index _) as [indexed|e] eqn:Hreset; [|done].
  apply reset_index_returned in Hreset as ->. intros [= <-].
  cbn [bar_frame]. unfold rename_column, index_as_column, of_rows. cbn [data index].
  rewrite zip_with_fst_snd. apply list_fmap_ext. by intros ? [].
Qed.

End TopRegionsFigure.

(** X16: the bars are rows of the region table, each label with its own
    cells, and they are the largest: a row of the region table that
    reaches [min_interest] is either plotted or no larger than any
    plotted value. *)
Theorem top_regions_are_the_largest {X : Transport} (region_text time_text : json)
    (m : Z) (top_n : option Z) (kw : pystr) (others : list pystr) (j : nat)
    (fig : BarFigure) :
  columns (read_json time_text) = kw :: others →
  position kw (columns (read_json region_text)) = Some j →
  update_top_regions (Some region_text) (Some time_text) (Some m) top_n
  = Returned (Some fig) →
  (∀ row, row ∈ data (bar_frame fig) →
     ∃ r, r ∈ rows (read_json region_text) ∧ row = r.1 :: r.2)
  ∧ (∀ r z, r ∈ rows (read_json region_text) →
       sort_key j r = Some z → (m ≤ z)%Z →
       r.1 :: r.2 ∈ data (bar_frame fig)
       ∨ Forall (λ row, ∃ z', cell_num (cell_at (S j) row) = Some z' ∧ (z ≤ z')%Z)
                (data (bar_frame fig))).
Proof.
  intros Hcols Hpos Hfig.
  destruct (filter_ge j (or_default (Some m) 0) (rows (read_json region_text)))
    as [kept|e] eqn:Hkept.
  2:{ unfold update_top_regions in Hfig. rewrite Hcols, Hpos, Hkept in Hfig.
      by destruct (_ || _). }
  rewrite (update_top_regions_rows _ _ _ _ _ _ _ _ _ Hcols Hpos Hkept Hfig).
  rewrite or_default_zero in Hkept.
  pose proof (filter_ge_passes _ _ _ _ Hkept) as Hpass.
  pose proof (filter_ge_sublist _ _ _ _ Hkept) as Hsub.
  pose proof (sort_values_desc_perm j kept) as Hperm.
  pose proof (sort_values_desc_sorted j kept) as Hsorted.
  destruct (head_rows_take (or_default top_n 10) (sort_values_desc j kept))
    as [k ->].
  split.
  - intros row (r & -> & Hr)%list_elem_of_fmap. exists r. split; [|done].
    eapply elem_of_sublist; [|exact Hsub]. rewrite <- Hperm.
    by eapply subseteq_take.
  - intros r z Hr Hz Hm.
    assert (r ∈ sort_values_desc j kept) as Hin.
    { rewrite Hperm. eapply filter_ge_complete; [done|done|by exists z]. }
    rewrite <- (take_drop k (sort_values_desc j kept)) in Hin, Hsorted.
    apply elem_of_app in Hin as [Hin|Hin].
    + left. by apply (list_elem_of_fmap_2 (λ r, r.1 :: r.2)).
    + right. apply Forall_fmap, Forall_forall. intros r' Hr'. cbn [compose].
      pose proof (StronglySorted_app_1_elem_of _ _ _ _ _ Hsorted Hr' Hin) as Hrank.
      assert (passes j m r') as (z' & Hz' & _).
      { rewrite <- Hperm in Hpass. rewrite Forall_forall in Hpass.
        apply Hpass. by eapply subseteq_take. }
      exists z'. unfold ranks_before in Hrank. rewrite Hz', Hz in Hrank.
      split; [exact Hz'|by apply Z.leb_le].
Qed.

Lemma top_regions_are_the_largest_witness :
  ∃ fig,
    update_top_regions (X := in_memory) (Some sample_region) (Some sample_time)
                       (Some 20%Z) (Some 3%Z) = Returned (Some fig)
    ∧ ([CStr (py "Ghana"); CInt 20] ∈ data (bar_frame fig)
       ∨ Forall (λ row, ∃ z', cell_num (cell_at 1 row) = Some z' ∧ (20 ≤ z')%Z)
                (data (bar_frame fig))).
Proof.
  eexists. split; [vm_compute; reflexivity|].
  refine (proj2 (top_regions_are_the_largest (X := in_memory) sample_region
                   sample_time 20 (Some 3%Z) (py "Python") [isPartial] 0 _
                   eq_refl eq_refl _) (CStr (py "Ghana"), [CInt 20]) 20%Z _ eq_refl _).
  - vm_compute. reflexivity.
  - vm_compute. do 2 apply list_elem_of_further. apply list_elem_of_here.
  - lia.
Defined.

(** X17: when every value of the keyword column lies below
    [min_interest], the callback hands back the empty figure. *)
Theorem top_regions_none_above {X : Transport} (region_text time_text : json)
    (m : Z) (top_n : option Z) (kw : pystr) (others : list pystr) (j : nat) :
  columns (read_json time_text) = kw :: others →
  position kw (columns (read_json region_text)) = Some j →
  Forall (λ r, ∃ z, sort_key j r = Some z ∧ (z < m)%Z)
         (rows (read_json region_text)) →
  update_top_regions (Some region_text) (Some time_text) (Some m) top_n
  = Returned None.
Proof.
  intros Hcols Hpos Hbelow. unfold update_top_regions.
  destruct (_ || _); [done|]. rewrite Hcols, Hpos, or_default_zero.
  rewrite (filter_ge_below _ _ _ Hbelow).
  assert (head_rows (or_default top_n 10) (sort_values_desc j []) = []) as ->.
  { destruct (head_rows_take (or_default top_n 10) (sort_values_desc j []))
      as [k ->]. by destruct k. }
  reflexivity.
Qed.

Lemma top_regions_none_above_witness :
  update_top_regions (X := in_memory) (Some sample_region) (Some sample_time)
                     (Some 101%Z) (Some 3%Z) = Returned None.
Proof.
  apply (top_regions_none_above (X := in_memory) sample_region sample_time 101
           (Some 3%Z) (py "Python") [isPartial] 0); try reflexivity.
  repeat constructor; eexists; (split; [reflexivity|lia]).
Defined.

(** ** Tables: dropping a column *)

Lemma position_cons c x cols :
  position c (x :: cols)
  = if decide (x = c) then Some 0 else S <$> position c cols.
Proof.
  unfold position. cbn [list_find]. case_decide; [done|].
  by destruct (list_find _ cols) as [[i y]|].
Qed.

Lemma drop_cells_length name cols (row : list cell) :
  length row = length cols →
  length (filter (λ cv : pystr * cell, cv.1 ≠ name) (zip cols row)).*2
  = length (filter (λ c, c ≠ name) cols).
Proof.
  revert row. induction cols as [|x cols IH]; intros [|v row]; try done.
  intros [= Hlen]. cbn [zip zip_with]. rewrite !filter_cons. cbn [fst].
  case_decide; cbn; rewrite IH; done.
Qed.

Lemma drop_cells_lookup name c cols (row : list cell) j :
  length row = length cols →
  c ≠ name →
  position c cols = Some j →
  position c (filter (λ c, c ≠ name) cols)
  = Some (length (filter (λ c, c ≠ name) (take j cols)))
  ∧ (filter (λ cv : pystr * cell, cv.1 ≠ name) (zip cols row)).*2
    !! length (filter (λ c, c ≠ name) (take j cols))
    = row !! j.
Proof.
  revert row j. induction cols as [|x cols IH]; intros [|v row] j; try done.
  intros [= Hlen] Hc. rewrite position_cons.
  cbn [zip zip_with]. rewrite !filter_cons. cbn [fst].
  case_decide as Hx.
  - intros [= <-]. subst x. destruct (decide (c ≠ name)); [|done].
    rewrite position_cons. by destruct (decide (c = c)).
  - destruct (position c cols) as [i|] eqn:Hpos; [|done].
    intros [= <-]. cbn [take]. rewrite filter_cons.
    destruct (IH row i Hlen Hc eq_refl) as [IHpos IHcell].
    destruct (decide (x ≠ name)); [|done].
    rewrite position_cons. destruct (decide (x = c)); [done|].
    rewrite IHpos. done.
Qed.

(** X18: dropping a column of a well-formed table leaves a well-formed
    table with the same row labels and without that column, in which
    every other column is found under its name with the cells it had. *)
Theorem drop_column_keeps_the_rest (name : pystr) (df : DataFrame) :
  well_formed df →
  well_formed (drop_column name df)
  ∧ index (drop_column name df) = index df
  ∧ (name ∉ columns (drop_column name df))
  ∧ (∀ c j, c ≠ name → position c (columns df) = Some j →
       ∃ j', position c (columns (drop_column name df)) = Some j'
             ∧ column_at j' (drop_column name df) = column_at j df).
Proof.
  intros [Hlen Hrows]. unfold drop_column, well_formed, column_at.
  cbn [index columns data]. split_and!.
  - rewrite length_fmap. exact Hlen.
  - apply Forall_fmap. eapply Forall_impl; [exact Hrows|].
    intros row Hrow. cbn [compose]. by apply drop_cells_length.
  - done.
  - rewrite list_elem_of_filter. naive_solver.
  - intros c j Hc Hpos.
    exists (length (filter (λ c, c ≠ name) (take j (columns df)))). split.
    + eapply (drop_cells_lookup name c (columns df)
                (replicate (length (columns df)) CNaN));
        [by rewrite length_replicate|done|done].
    + rewrite <- list_fmap_compose. apply Forall_fmap_ext_1.
      eapply Forall_impl; [exact Hrows|]. intros row Hrow. cbn [compose].
      unfold cell_at. f_equal. by eapply drop_cells_lookup.
Qed.

Lemma drop_column_keeps_the_rest_witness :
  ∃ j', position (py "Python") (columns (drop_column isPartial sample_time)) = Some j'
        ∧ column_at j' (drop_column isPartial sample_time)
          = column_at 0 sample_time.
Proof.
  destruct (drop_column_keeps_the_rest isPartial sample_time) as (_ & _ & _ & Hcol).
  - split; [reflexivity|]. repeat constructor.
  - apply (Hcol (py "Python") 0); [discriminate|reflexivity].
Defined.

(** ** The map of the regions *)

Lemma filter_label_absent (l : pystr) (cols : list pystr) :
  l ∉ cols → filter (λ c, c = l) cols = [].
Proof.
  induction cols as [|x cols IH]; [done|]. intros Hn.
  rewrite filter_cons_False by set_solver. apply IH. set_solver.
Qed.

Lemma filter_cells_absent (l : pystr) (cols : list pystr) (row : list cell) :
  l ∉ cols → filter (λ cv : pystr * cell, cv.1 = l) (zip cols row) = [].
Proof.
  revert row. induction cols as [|x cols IH]; intros [|v row] Hn; try done.
  cbn [zip zip_with]. rewrite filter_cons_False by (cbn; set_solver).
  apply IH. set_solver.
Qed.

Lemma plot_interest_map_first_column (df : DataFrame) :
  df_empty df = false →
  well_formed df →
  NoDup (columns df) →
  py "level_0" ∉ columns df →
  plot_interest_map df
  = Returned (Some
      {| map_frame :=
           {| index := (λ i, CInt (Z.of_nat i)) <$> seq 0 (length (index df));
              columns := [py "Country"; py "Interest"];
              data := (λ r, [r.1; cell_at 0 r.2]) <$> rows df |};
         map_locations := py "Country";
         map_color := py "Interest" |}).
Proof.
  intros Hempty [Hlen Hrows] Hdup Hlevel. unfold plot_interest_map.
  rewrite Hempty. rewrite reset_index_free by tauto.
  unfold index_as_column. cbn [columns].
  destruct (columns df) as [|c0 rest] eqn:Hcols.
  { unfold df_empty in Hempty. rewrite Hcols in Hempty.
    by rewrite orb_true_r in Hempty. }
  set (label := if bool_decide (py "index" ∈ c0 :: rest)
                then py "level_0" else py "index").
  assert (label ∉ c0 :: rest) as Hlabel.
  { unfold label. by case_bool_decide. }
  apply NoDup_cons in Hdup as [Hc0 _].
  assert (label ≠ c0) as Hne by set_solver.
  unfold select_columns, set_columns. cbn [columns index data].
  cbn [mbind list_bind app].
  rewrite !filter_cons, app_nil_r.
  rewrite decide_True by done. rewrite (decide_False (P := c0 = label)) by done.
  rewrite decide_False by done. rewrite decide_True by done.
  rewrite (filter_label_absent label) by set_solver.
  rewrite (filter_label_absent c0) by done.
  cbn [app length]. rewrite bool_decide_eq_true_2 by done.
  do 4 f_equal. unfold rows.
  rewrite zip_with_zip, <- list_fmap_compose.
  apply Forall_fmap_ext_1, Forall_forall. intros [lbl cells] Hin.
  assert (length cells = S (length rest)) as Hcells.
  { apply elem_of_zip_r in Hin. rewrite Forall_forall in Hrows.
    by apply Hrows in Hin. }
  destruct cells as [|x cells]; [done|].
  cbn [compose uncurry zip zip_with fst snd]. rewrite app_nil_r.
  rewrite !filter_cons. cbn [fst].
  rewrite decide_True by done. rewrite (decide_False (P := c0 = label)) by done.
  rewrite decide_False by done. rewrite decide_True by done.
  rewrite (filter_cells_absent label) by set_solver.
  rewrite (filter_cells_absent c0) by done.
  reflexivity.
Qed.

Example plot_interest_map_sample :
  plot_interest_map sample_region
  = Returned (Some
      {| map_frame :=
           {| index := [CInt 0; CInt 1; CInt 2; CInt 3; CInt 4];
              columns := [py "Country"; py "Interest"];
              data := [[CStr (py "Nigeria"); CInt 35];
                       [CStr (py "Kenya"); CInt 100];
                       [CStr (py "Ghana"); CInt 20];
                       [CStr (py "Peru"); CInt 5];
                       [CStr (py "Chad"); CInt 61]] |};
         map_locations := py "Country";
         map_color := py "Interest" |}).
Proof. vm_compute. reflexivity. Qed.

(** X19: for a stored region table with rows, distinct column names
    and no column called ["level_0"], the map callback always draws: the
    plotted table has the two columns "Country" and "Interest", and the
    row of each region is its label followed by its value in the first
    column. *)
Theorem update_region_map_first_column {X : Transport} (text : json) :
  json_truthy text = true →
  df_empty (read_json text) = false →
  well_formed (read_json text) →
  NoDup (columns (read_json text)) →
  py "level_0" ∉ columns (read_json text) →
  update_region_map (Some text)
  = Returned (Some
      {| map_frame :=
           {| index := (λ i, CInt (Z.of_nat i))
                       <$> seq 0 (length (index (read_json text)));
              columns := [py "Country"; py "Interest"];
              data := (λ r, [r.1; cell_at 0 r.2]) <$> rows (read_json text) |};
         map_locations := py "Country";
         map_color := py "Interest" |}).
Proof.
  intros Htext Hempty Hwf Hdup Hlevel. unfold update_region_map, store_truthy.
  rewrite Htext. cbn [negb]. by apply plot_interest_map_first_column.
Qed.

Lemma update_region_map_first_column_witness :
  ∃ fig, update_region_map (X := in_memory) (Some sample_region)
         = Returned (Some fig)
         ∧ columns (map_frame fig) = [py "Country"; py "Interest"].
Proof.
  eexists. split.
  - apply (update_region_map_first_column (X := in_memory) sample_region).
    + reflexivity.
    + reflexivity.
    + split; [reflexivity|]. repeat constructor.
    + apply NoDup_singleton.
    + vm_compute. by intros ?%list_elem_of_singleton.
  - reflexivity.
Defined.

(** ** The download *)

Lemma rename_absent (old new : pystr) (cols : list pystr) :
  old ∉ cols →
  (λ c, if bool_decide (c = old) then new else c) <$> cols = cols.
Proof.
  induction cols as [|x cols IH]; [done|]. intros Hn.
  rewrite fmap_cons, IH by set_solver.
  rewrite bool_decide_eq_false_2 by set_solver. done.
Qed.

(** X20: for a non-empty time store, [download_time_csv] writes a table
    with one row for each stored row, its label first.  When no stored
    column is called ["index"] the columns are "Date" followed by the
    stored columns; when a stored column is called ["index"] and none
    ["level_0"], the label column is called ["level_0"] and it is that
    stored column which is renamed "Date"; when the stored table has
    both columns, the callback raises the [ValueError] of
    [reset_index]. *)
Theorem download_time_csv_table {X : Transport} {W : CsvWriter}
    (n_clicks : N) (text : json) :
  json_truthy text = true →
  let df := read_json text in
  (py "index" ∉ columns df →
     ∃ table,
       download_time_csv n_clicks (Some text)
       = Returned (Some {| content := to_csv table;
                           filename := py "interest_over_time.csv" |})
       ∧ data table = zip_with cons (index df) (data df)
       ∧ columns table = py "Date" :: columns df)
  ∧ (py "index" ∈ columns df → py "level_0" ∉ columns df →
       ∃ table,
         download_time_csv n_clicks (Some text)
         = Returned (Some {| content := to_csv table;
                             filename := py "interest_over_time.csv" |})
         ∧ data table = zip_with cons (index df) (data df)
         ∧ columns table !! 0 = Some (py "level_0")
         ∧ py "Date" ∈ columns table ∧ py "index" ∉ columns table)
  ∧ (py "index" ∈ columns df → py "level_0" ∈ columns df →
       download_time_csv n_clicks (Some text)
       = Raised (Exception (py "cannot insert level_0, already exists"))).
Proof.
  intros Htext. cbv zeta. unfold download_time_csv, store_truthy, csv_frame.
  rewrite Htext. cbn [negb]. split_and!.
  - intros Hn. rewrite reset_index_free by tauto.
    eexists. split; [reflexivity|].
    unfold rename_column, index_as_column. cbn [data columns]. split; [done|].
    rewrite bool_decide_eq_false_2 by done.
    rewrite fmap_cons, rename_absent by done.
    by rewrite bool_decide_eq_true_2.
  - intros Hin Hlevel. rewrite reset_index_free by tauto.
    eexists. split; [reflexivity|].
    unfold rename_column, index_as_column. cbn [data columns]. split; [done|].
    rewrite bool_decide_eq_true_2 by done.
    rewrite fmap_cons.
    rewrite (bool_decide_eq_false_2 (py "level_0" = py "index")) by done.
    split_and!.
    + done.
    + apply list_elem_of_further. apply list_elem_of_fmap.
      exists (py "index"). by rewrite bool_decide_eq_true_2.
    + intros [Heq|Hin']%elem_of_cons; [done|].
      apply list_elem_of_fmap in Hin' as (c & Hc & _).
      case_bool_decide; simplify_eq.
  - intros Hin Hlevel. unfold reset_index.
    by rewrite !bool_decide_eq_true_2.
Qed.

Lemma download_time_csv_table_witness :
  ∃ table,
    download_time_csv (X := in_memory) (W := λ _, []) 1
      (Some (drop_column isPartial sample_time))
    = Returned (Some {| content := []; filename := py "interest_over_time.csv" |})
    ∧ columns table = [py "Date"; py "Python"].
Proof.
  destruct (download_time_csv_table (X := in_memory) (W := λ _, []) 1
              (drop_column isPartial sample_time) eq_refl)
    as (Hplain & _ & _).
  destruct Hplain as (table & Hrun & _ & Hcols).
  { vm_compute. by intros ?%list_elem_of_singleton. }
  exists table. split; [exact Hrun|exact Hcols].
Defined.

(** Three keywords that the parser accepts and on which the download
    and the top-regions step raise. *)
Example reset_index_collision :
  _parse_keywords (py "a, index, level_0") = [py "a"; py "index"; py "level_0"]
  ∧ reset_index {| index := [CStr (py "Kenya")];
                   columns := [py "a"; py "index"; py "level_0"];
                   data := [[CInt 100; CInt 3; CInt 1]] |}
    = Raised (Exception (py "cannot insert level_0, already exists"))
  ∧ update_top_regions (X := in_memory)
      (Some {| index := [CStr (py "Kenya")];
               columns := [py "a"; py "index"; py "level_0"];
               data := [[CInt 100; CInt 3; CInt 1]] |})
      (Some {| index := [CStr (py "2024-01-01")];
               columns := [py "a"; py "index"; py "level_0"];
               data := [[CInt 70; CInt 2; CInt 1]] |})
      (Some 0%Z) (Some 10%Z)
    = Raised (Exception (py "cannot insert level_0, already exists")).
Proof. vm_compute. split_and!; reflexivity. Qed.

(** ** The title of the bar chart *)

Lemma replace_suffix_only (kw : pystr) :
  95%N ∉ kw → replace interest_suffix [] (kw ++ interest_suffix) = kw.
Proof.
  unfold replace. induction kw as [|c kw IH]; intros Hn; [reflexivity|].
  cbn [app replace_from].
  rewrite bool_decide_eq_false_2.
  - f_equal. apply IH. set_solver.
  - intros Hp. apply prefix_cons_inv_1 in Hp. set_solver.
Qed.

(** X21: for a keyword without an underscore the title of the bar chart
    names the keyword: the ["_interest"] that the callback appended to
    the column name is taken off again. *)
Theorem top_regions_title_names_keyword (kw : pystr) :
  95%N ∉ kw →
  top_regions_title (kw ++ interest_suffix)
  = py "Top Regions for '" ++ kw ++ py "'".
Proof.
  intros Hn. unfold top_regions_title. by rewrite replace_suffix_only.
Qed.

Lemma top_regions_title_names_keyword_witness :
  top_regions_title (py "Python_interest") = py "Top Regions for 'Python'".
Proof.
  apply (top_regions_title_names_keyword (py "Python")).
  vm_compute. intros H. repeat (apply elem_of_cons in H as [H|H]; [done|]).
  by apply elem_of_nil in H.
Defined.

(** A keyword that contains ["_interest"] loses it in the title. *)
Example top_regions_title_self_interest :
  top_regions_title (py "self_interest" ++ interest_suffix)
  = py "Top Regions for 'self'".
Proof. vm_compute. reflexivity. Qed.

(** ** The country resolver, once more *)

Lemma capital_letter `{Unicode} c :
  (65 ≤ c ≤ 90)%N →
  isspace c = false ∧ isalpha_char c = true ∧ upper_char c = [c].
Proof.
  intros Hc. unfold isspace, isalpha_char, upper_char.
  destruct (N.ltb_spec c 256); [|lia].
  unfold latin1_isalpha, latin1_upper.
  split_comparisons; done.
Qed.

Lemma get_country_code_of_code `{Unicode} `{Pycountry} r :
  iso_code r → get_country_code r = Returned r.
Proof.
  intros [Hlen Hcaps]. destruct r as [|a [|b [|? ?]]]; try done.
  apply Forall_cons in Hcaps as [Ha Hcaps]. apply Forall_cons in Hcaps as [Hb _].
  destruct (capital_letter a Ha) as (Hsa & Haa & Hua).
  destruct (capital_letter b Hb) as (Hsb & Hab & Hub).
  unfold get_country_code. cbn [truthy negb].
  assert (strip [a; b] = [a; b]) as ->.
  { unfold strip, strip_by, rstrip_by. cbn [lstrip_by]. rewrite Hsa.
    change (reverse [a; b]) with [b; a]. cbn [lstrip_by]. by rewrite Hsb. }
  unfold isalpha, upper. cbn. rewrite Haa, Hab, Hua, Hub. reflexivity.
Qed.

(** X22: on an input whose trimmed form is ASCII, and with a country
    database that holds two-capital-letter codes, resolving the result
    of [get_country_code] again gives the same result. *)
Theorem get_country_code_idempotent `{Unicode} `{Pycountry}
    (user_input r : pystr) :
  (∀ q country, lookup q = Returned country → iso_code (alpha_2 country)) →
  ascii_only (strip user_input) →
  get_country_code user_input = Returned r →
  get_country_code r = Returned r.
Proof.
  intros Hdb Hascii. unfold get_country_code at 1.
  destruct (negb (truthy user_input)); [by intros [= <-]|].
  destruct (_ && _) eqn:Htwo.
  - apply andb_true_iff in Htwo as [Hlen%Nat.eqb_eq Ha].
    intros [= <-]. by apply get_country_code_of_code, upper_ascii_pair.
  - destruct (lookup (strip user_input)) as [country|e] eqn:Hl;
      intros [= <-]; [|done].
    by eapply get_country_code_of_code, Hdb.
Qed.

Lemma get_country_code_idempotent_witness :
  get_country_code (U := latin1_only) (P := one_country) (py "NG")
  = Returned (py "NG").
Proof.
  apply (get_country_code_idempotent (H := latin1_only) (H0 := one_country)
           (py " Nigeria ")).
  - intros q country. unfold lookup, one_country.
    case_bool_decide; [|discriminate].
    intros [= <-]. split; [reflexivity|]. repeat constructor; simpl; lia.
  - vm_compute. repeat constructor.
  - reflexivity.
Defined.
